(** * mcp_weather_server: the tool registry and dispatcher of [server.py]

    A shallow embedding of [src/mcp_weather_server/server.py]:
    the module-level registry [tool_handlers], [add_tool_handler],
    [get_tool_handler], [register_all_tools], [list_tools] and [call_tool].

    Python values are an inductive type, the registry is an insertion-ordered
    dictionary, and the code that reads or writes the registry, logs, awaits a
    handler and raises runs in a small state-and-exception monad. *)

From Stdlib Require Import ZArith QArith.
From stdpp Require Import base list strings gmap.

Local Open Scope Z_scope.

(** ** Python values *)

(** The argument values the transport hands to [call_tool] ([arguments: Any]):
    JSON-shaped Python objects. A [dict] keeps its items in insertion order. *)
#[warnings="-register-all"] Inductive PyValue : Type :=
| VNone
| VBool (b : bool)
| VInt (z : Z)
| VFloat (q : Q)
| VStr (s : string)
| VList (items : list PyValue)
| VDict (items : list (string * PyValue)).

(** [isinstance(v, dict)] *)
Definition isinstance_dict (v : PyValue) : bool :=
  match v with
  | VDict _ => true
  | _ => false
  end.

(** [list(v.keys())], for a value that passed [isinstance_dict]. *)
Definition keys_of (v : PyValue) : list string :=
  match v with
  | VDict items => map fst items
  | _ => []
  end.

(** ** Insertion-ordered dictionaries ([Dict[str, V]]) *)

Module PyDict.
Section Dict.
Context {V : Type}.

Definition t := list (string * V).

Definition empty : t := [].

(** [d.get(k)]: the value stored under [k], or [None]. *)
Fixpoint get (k : string) (d : t) : option V :=
  match d with
  | [] => None
  | (k', v) :: rest => if decide (k = k') then Some v else get k rest
  end.

(** [d[k] = v]: a key already present keeps its place and takes the new
    value; a new key goes to the end. *)
Fixpoint set (k : string) (v : V) (d : t) : t :=
  match d with
  | [] => [(k, v)]
  | (k', v') :: rest =>
      if decide (k = k') then (k, v) :: rest else (k', v') :: set k v rest
  end.

(** [d.keys()] and [d.values()], in insertion order. *)
Definition keys (d : t) : list string := map fst d.
Definition values (d : t) : list V := map snd d.

(** [len(d)] *)
Definition len (d : t) : nat := length d.
End Dict.
Arguments t : clear implicits.
End PyDict.

(** ** Exceptions *)

(** The exception classes that reach [call_tool]'s [except Exception]. The last
    three derive from [BaseException] only: an [except Exception] clause lets
    them through. *)
Inductive ExcClass : Type :=
| RuntimeError
| ValueError
| KeyError
| TypeError
| OtherException (cls : string)
| CancelledError
| KeyboardInterrupt
| SystemExit.

Record PyExc : Type := mkExc {
  exc_class : ExcClass;
  exc_str : string            (* [str(e)] *)
}.

(** [isinstance(e, Exception)] *)
Definition isinstance_Exception (e : PyExc) : bool :=
  match exc_class e with
  | CancelledError | KeyboardInterrupt | SystemExit => false
  | _ => true
  end.

(** How a call ends: it returns a value or raises. *)
Inductive Outcome (A : Type) : Type :=
| Returned (a : A)
| Raised (e : PyExc).
Arguments Returned {A} a.
Arguments Raised {A} e.

(** ** MCP types ([mcp.types]) *)

Inductive Content : Type :=
| TextContent (text : string)                 (* [TextContent(type="text", text=...)] *)
| ImageContent (data mimeType : string)
| EmbeddedResource (resource : string).

Record Tool : Type := mkTool {
  tool_name : string;
  tool_description : string;
  tool_inputSchema : PyValue
}.

(** ** What a handler reads from outside

    What an HTTP GET against a provider gives back, as the test fixtures
    ([tests/conftest.py]) mock it: a response with a status code and a JSON
    body, or [httpx.RequestError]. *)
Inductive HttpResult : Type :=
| Response (status_code : Z) (json : PyValue)
| RequestError (msg : string).

(** The two upstream providers. *)
Record Upstream : Type := mkUpstream {
  geocoding_get : string -> HttpResult;                    (* by place name *)
  weather_get : Q -> Q -> string -> string -> HttpResult   (* latitude, longitude, start, end *)
}.

(** The providers, and the clock the time tools read ([datetime.now], which
    the fixture [mock_datetime] pins to a fixed time), as ISO 8601 text. *)
Record World : Type := mkWorld {
  providers : Upstream;
  now : string
}.

(** ** Tool handlers ([tools.toolhandler.ToolHandler])

    The handler classes are imported by [server.py]; the server uses three
    members of a handler: the attribute [name], [get_tool_description()] and
    the coroutine [run_tool(arguments)]. A handler is a plain object (always
    truthy), lives in the [tools] package and holds no reference to the
    server's registry; what a run reads outside its arguments is in [World]. *)
Record ToolHandler : Type := mkHandler {
  name : string;
  get_tool_description : Outcome Tool;
  run_tool : World -> PyValue -> Outcome (list Content)
}.

(** ** Server state and its monad *)

(** What the server does besides returning: its log lines, and the one await
    on a handler's [run_tool]. *)
Inductive Event : Type :=
| log_registered (n : string)                      (* "Registered tool handler: {name}" *)
| log_registered_count (k : nat)                   (* "Registered {len(tool_handlers)} tool handlers" *)
| log_listed (k : nat)                             (* "Listed {len(tools)} available tools" *)
| log_list_error (msg : string)                    (* "Error listing tools: {str(e)}" *)
| log_executing (n : string) (ks : list string)    (* "Executing tool: {name} with arguments: {keys}" *)
| await_run_tool (h : string) (arguments : PyValue) (* [await tool_handler.run_tool(arguments)] *)
| log_executed (n : string)                        (* "Tool {name} executed successfully" *)
| log_exception (n : string) (msg : string)        (* "Error executing tool {name}: {str(e)}" *)
| log_traceback.                                   (* "Full traceback: {error_traceback}" *)

Record ServerState : Type := mkState {
  tool_handlers : PyDict.t ToolHandler;   (* the global registry *)
  events : list Event                     (* oldest first *)
}.

(** The interpreter state at import time: [tool_handlers = {}]. *)
Definition initial : ServerState :=
  {| tool_handlers := PyDict.empty; events := [] |}.

Definition M (A : Type) : Type := ServerState -> Outcome A * ServerState.

Definition ret {A} (a : A) : M A := fun s => (Returned a, s).

Definition bind {A B} (m : M A) (k : A -> M B) : M B :=
  fun s =>
    match m s with
    | (Returned a, s') => k a s'
    | (Raised e, s') => (Raised e, s')
    end.

Declare Scope server_scope.
Delimit Scope server_scope with server.
Bind Scope server_scope with M.
Notation "x <- m ;; k" := (bind m (fun x => k))
  (at level 100, m at next level, right associativity) : server_scope.
Notation "m ;; k" := (bind m (fun _ => k))
  (at level 100, right associativity) : server_scope.
Local Open Scope server_scope.

(** [raise e] *)
Definition raise {A} (e : PyExc) : M A := fun s => (Raised e, s).

(** The outcome of a call that does not touch the server state. *)
Definition lift {A} (o : Outcome A) : M A := fun s => (o, s).

Definition read_registry : M (PyDict.t ToolHandler) :=
  fun s => (Returned (tool_handlers s), s).

Definition write_registry (f : PyDict.t ToolHandler -> PyDict.t ToolHandler) : M unit :=
  fun s => (Returned tt, {| tool_handlers := f (tool_handlers s); events := events s |}).

Definition emit (ev : Event) : M unit :=
  fun s => (Returned tt, {| tool_handlers := tool_handlers s; events := events s ++ [ev] |}).

(** [try: body except Exception as e: handler(e)]: an exception that is not
    an instance of [Exception] passes through. *)
Definition try_except {A} (body : M A) (handler : PyExc -> M A) : M A :=
  fun s =>
    match body s with
    | (Returned a, s') => (Returned a, s')
    | (Raised e, s') =>
        if isinstance_Exception e then handler e s' else (Raised e, s')
    end.

(** [[f(x) for x in xs]]: left to right, stopping at the first raise. *)
Fixpoint for_each {A B} (f : A -> M B) (xs : list A) : M (list B) :=
  match xs with
  | [] => ret []
  | x :: rest => y <- f x ;; ys <- for_each f rest ;; ret (y :: ys)
  end.

(** ** [server.py] *)

Definition add_tool_handler (tool_handler : ToolHandler) : M unit :=
  write_registry (PyDict.set (name tool_handler) tool_handler) ;;
  emit (log_registered (name tool_handler)).

Definition get_tool_handler (n : string) : M (option ToolHandler) :=
  d <- read_registry ;; ret (PyDict.get n d).

(** The six handler instances that [register_all_tools] constructs, in the
    order it registers them. *)
Record Catalogue : Type := mkCatalogue {
  GetCurrentWeatherToolHandler : ToolHandler;
  GetWeatherByDateRangeToolHandler : ToolHandler;
  GetWeatherDetailsToolHandler : ToolHandler;
  GetCurrentDateTimeToolHandler : ToolHandler;
  GetTimeZoneInfoToolHandler : ToolHandler;
  ConvertTimeToolHandler : ToolHandler
}.

Definition register_all_tools (c : Catalogue) : M unit :=
  add_tool_handler (GetCurrentWeatherToolHandler c) ;;
  add_tool_handler (GetWeatherByDateRangeToolHandler c) ;;
  add_tool_handler (GetWeatherDetailsToolHandler c) ;;
  add_tool_handler (GetCurrentDateTimeToolHandler c) ;;
  add_tool_handler (GetTimeZoneInfoToolHandler c) ;;
  add_tool_handler (ConvertTimeToolHandler c) ;;
  d <- read_registry ;;
  emit (log_registered_count (PyDict.len d)).

Definition list_tools : M (list Tool) :=
  try_except
    (d <- read_registry ;;
     tools <- for_each (fun handler => lift (get_tool_description handler)) (PyDict.values d) ;;
     emit (log_listed (length tools)) ;;
     ret tools)
    (fun e => emit (log_list_error (exc_str e)) ;; raise e).

(** The [try] block of [call_tool]. *)
Definition call_tool_body (w : World) (n : string) (arguments : PyValue) : M (list Content) :=
  (if isinstance_dict arguments then ret tt
   else raise (mkExc RuntimeError "Arguments must be a dictionary")) ;;
  tool_handler <- get_tool_handler n ;;
  match tool_handler with
  | None => raise (mkExc ValueError ("Unknown tool: " +:+ n))
  | Some h =>
      emit (log_executing n (keys_of arguments)) ;;
      emit (await_run_tool (name h) arguments) ;;
      result <- lift (run_tool h w arguments) ;;
      emit (log_executed n) ;;
      ret result
  end.

(** The text of the error content: [f"Error executing tool '{name}': {str(e)}"]. *)
Definition error_text (n : string) (msg : string) : string :=
  "Error executing tool '" +:+ n +:+ "': " +:+ msg.

(** The [except Exception as e] block of [call_tool]. *)
Definition call_tool_except (n : string) (e : PyExc) : M (list Content) :=
  emit (log_exception n (exc_str e)) ;;
  emit log_traceback ;;
  ret [TextContent (error_text n (exc_str e))].

Definition call_tool (w : World) (n : string) (arguments : PyValue) : M (list Content) :=
  try_except (call_tool_body w n arguments) (call_tool_except n).

(** ** Notions the statements use *)

(** The state a computation leaves and the outcome it has. *)
Definition outcome_of {A} (m : M A) (s : ServerState) : Outcome A := fst (m s).
Definition state_after {A} (m : M A) (s : ServerState) : ServerState := snd (m s).

(** Registering a sequence of handlers, one [add_tool_handler] after the other. *)
Fixpoint register_each (hs : list ToolHandler) : M unit :=
  match hs with
  | [] => ret tt
  | h :: rest => add_tool_handler h ;; register_each rest
  end.

(** The server state after the handlers [hs] were registered, in this order,
    starting from the empty registry. *)
Definition after_registering (hs : list ToolHandler) : ServerState :=
  state_after (register_each hs) initial.

(** The handler most recently registered under [n] in a registration
    sequence [hs] (first registered first). *)
Definition most_recent (n : string) (hs : list ToolHandler) : option ToolHandler :=
  find (fun h => bool_decide (name h = n)) (rev hs).

(** The names in order of first appearance: the order in which a dictionary
    keeps keys that were set one after the other. *)
Fixpoint first_seen (seen : list string) (ns : list string) : list string :=
  match ns with
  | [] => seen
  | n :: rest =>
      if decide (n ∈ seen) then first_seen seen rest else first_seen (seen ++ [n]) rest
  end.

(** Every entry of a registry built by [add_tool_handler] sits under its
    handler's name. *)
Definition keyed_by_name (d : PyDict.t ToolHandler) : Prop :=
  Forall (fun kh => kh.1 = name kh.2) d.

(** The outcomes of a sequence of calls that do not touch the state, taken
    left to right up to the first raise. *)
Fixpoint collect {A} (os : list (Outcome A)) : Outcome (list A) :=
  match os with
  | [] => Returned []
  | Returned a :: rest =>
      match collect rest with
      | Returned l => Returned (a :: l)
      | Raised e => Raised e
      end
  | Raised e :: _ => Raised e
  end.

(** A handler whose description comes back and carries the handler's name. *)
Definition describes_itself (h : ToolHandler) : Prop :=
  ∃ t, get_tool_description h = Returned t ∧ tool_name t = name h.

(** The handler runs among a list of events. *)
Definition is_run (ev : Event) : bool :=
  match ev with
  | await_run_tool _ _ => true
  | _ => false
  end.

Definition runs (evs : list Event) : list Event := filter (fun ev => is_run ev = true) evs.

(** [s] occurs in [body]. *)
Definition mentions (body s : string) : Prop :=
  ∃ before after, body = before +:+ s +:+ after.

(** ** The serving loop seen from the registry

    The transport calls the two entry points, in any order and any number of
    times. *)
Inductive Request : Type :=
| ListTools
| CallTool (w : World) (n : string) (arguments : PyValue).

Definition serve_one (s : ServerState) (r : Request) : ServerState :=
  match r with
  | ListTools => state_after list_tools s
  | CallTool w n arguments => state_after (call_tool w n arguments) s
  end.

Definition serve (rs : list Request) (s : ServerState) : ServerState :=
  fold_left serve_one rs s.

(** ** JSON bodies *)

(** [body[k]] for a dictionary, [None] for a missing key or another value. *)
Definition json_get (k : string) (v : PyValue) : option PyValue :=
  match v with
  | VDict items => PyDict.get k items
  | _ => None
  end.

Definition as_list (v : PyValue) : option (list PyValue) :=
  match v with VList items => Some items | _ => None end.

Definition as_str (v : PyValue) : option string :=
  match v with VStr s => Some s | _ => None end.

Definition as_int (v : PyValue) : option Z :=
  match v with VInt z => Some z | _ => None end.

Definition as_number (v : PyValue) : option Q :=
  match v with
  | VInt z => Some (inject_Z z)
  | VFloat q => Some q
  | _ => None
  end.

(** The array under [k], each element read by [conv]. *)
Definition field_array {A} (conv : PyValue -> option A) (k : string) (v : PyValue)
  : option (list A) :=
  a ← json_get k v; items ← as_list a; mapM conv items.

(** One result per index of five parallel arrays; [None] when their lengths
    differ. *)
Fixpoint zip5 {A B C D E R} (f : A -> B -> C -> D -> E -> R)
    (la : list A) (lb : list B) (lc : list C) (ld : list D) (le : list E)
  : option (list R) :=
  match la, lb, lc, ld, le with
  | [], [], [], [], [] => Some []
  | a :: la, b :: lb, c :: lc, d :: ld, e :: le =>
      rest ← zip5 f la lb lc ld le; Some (f a b c d e :: rest)
  | _, _, _, _, _ => None
  end.

(** ** The weather service and the CurrentWeather handler

    The modules [tools.weather_service] and [tools.tools_weather] are imported
    by [server.py] and are not among the sources at hand; what follows is
    taken from the specification (sections 3, 4.1 to 4.3, 6 and 7) and from the
    fixtures of [tests/conftest.py]. *)
Module WeatherService.

Definition NotFoundError : ExcClass := OtherException "NotFoundError".
Definition UpstreamError : ExcClass := OtherException "UpstreamError".
Definition DataShapeError : ExcClass := OtherException "DataShapeError".

(** Modelled from the spec: the messages of these errors, whose wording the
    spec leaves open. *)
Record Wording : Type := mkWording {
  missing_argument_text : string -> string;   (* the argument's key *)
  not_found_text : string -> string;          (* the place name *)
  status_text : Z -> string;                  (* the status code *)
  transport_text : string -> string;          (* the transport error's message *)
  shape_text : string
}.

(** Modelled from the spec: Coordinates (section 3). *)
Record Coordinates : Type := mkCoordinates {
  latitude : Q;
  longitude : Q
}.

(** Modelled from the spec: WeatherReading (section 3). *)
Record WeatherReading : Type := mkReading {
  timestamp : string;
  temperature_celsius : Q;
  relative_humidity_percent : Q;
  dew_point_celsius : Q;
  weather_code : Z;
  weather_description : string
}.

(** Modelled from the spec: a provider's success status; the fixtures answer
    200 on success and 500 on failure. *)
Definition is_success (status_code : Z) : bool := bool_decide (status_code = 200).

(** Modelled from the spec: the description of a weather code, from a static
    table; a code the table does not have is described as "Unknown"
    (section 4.2). The spec and the fixtures give two rows of the table, for
    the codes 0 and 1; the table is a parameter. *)
Definition describe (table : gmap Z string) (code : Z) : string :=
  default "Unknown" (table !! code).

(** Modelled from the spec: the coordinates of one geocoding result, an
    object with [latitude] and [longitude] (section 6). *)
Definition coordinates_of (result : PyValue) : option Coordinates :=
  lat ← json_get "latitude" result ≫= as_number;
  lon ← json_get "longitude" result ≫= as_number;
  Some {| latitude := lat; longitude := lon |}.

(** Modelled from the spec: the Coordinate Resolver (section 4.1). It takes
    the first result; no result is NotFoundError; a status that is not a
    success, or a transport error, is UpstreamError; a body of another shape
    is DataShapeError (section 7). *)
Definition resolve (wd : Wording) (up : Upstream) (place_name : string)
  : Outcome Coordinates :=
  match geocoding_get up place_name with
  | RequestError msg => Raised (mkExc UpstreamError (transport_text wd msg))
  | Response status_code body =>
      if is_success status_code then
        match json_get "results" body with
        | Some (VList []) => Raised (mkExc NotFoundError (not_found_text wd place_name))
        | Some (VList (first :: _)) =>
            match coordinates_of first with
            | Some c => Returned c
            | None => Raised (mkExc DataShapeError (shape_text wd))
            end
        | _ => Raised (mkExc DataShapeError (shape_text wd))
        end
      else Raised (mkExc UpstreamError (status_text wd status_code))
  end.

(** Modelled from the spec: one reading from the values at one index of the
    hourly arrays, its description translated from its code (section 4.2). *)
Definition reading (table : gmap Z string)
    (time : string) (temperature humidity dew_point : Q) (code : Z) : WeatherReading :=
  {| timestamp := time;
     temperature_celsius := temperature;
     relative_humidity_percent := humidity;
     dew_point_celsius := dew_point;
     weather_code := code;
     weather_description := describe table code |}.

(** Modelled from the spec: the readings of a weather body, an [hourly]
    object of parallel arrays (section 6); [None] when a field is absent, an
    element is of another type, or the lengths differ. *)
Definition readings_of (table : gmap Z string) (body : PyValue)
  : option (list WeatherReading) :=
  hourly ← json_get "hourly" body;
  times ← field_array as_str "time" hourly;
  temperatures ← field_array as_number "temperature_2m" hourly;
  humidities ← field_array as_number "relative_humidity_2m" hourly;
  dew_points ← field_array as_number "dew_point_2m" hourly;
  codes ← field_array as_int "weather_code" hourly;
  zip5 (reading table) times temperatures humidities dew_points codes.

(** Modelled from the spec: Weather Lookup (section 4.2), in the provider's
    order. *)
Definition fetch (wd : Wording) (table : gmap Z string) (up : Upstream)
    (coords : Coordinates) (start_date end_date : string)
  : Outcome (list WeatherReading) :=
  match weather_get up (latitude coords) (longitude coords) start_date end_date with
  | RequestError msg => Raised (mkExc UpstreamError (transport_text wd msg))
  | Response status_code body =>
      if is_success status_code then
        match readings_of table body with
        | Some readings => Returned readings
        | None => Raised (mkExc DataShapeError (shape_text wd))
        end
      else Raised (mkExc UpstreamError (status_text wd status_code))
  end.



End WeatherService.

(** ** Sample handlers and requests *)

Definition plain_tool (n : string) : Tool :=
  {| tool_name := n; tool_description := ""; tool_inputSchema := VDict [] |}.

(** A handler that answers every call with one text. *)
Definition replying (n reply : string) : ToolHandler :=
  {| name := n;
     get_tool_description := Returned (plain_tool n);
     run_tool := fun _ _ => Returned [TextContent reply] |}.

(** A handler whose every run raises [e]. *)
Definition failing (n : string) (e : PyExc) : ToolHandler :=
  {| name := n;
     get_tool_description := Returned (plain_tool n);
     run_tool := fun _ _ => Raised e |}.

(** Providers that are never reached. *)
Definition unreachable : Upstream :=
  {| geocoding_get := fun _ => RequestError "Network error";
     weather_get := fun _ _ _ _ => RequestError "Network error" |}.

Definition offline : World :=
  {| providers := unreachable; now := "2024-01-01T12:00:00" |}.

Definition first_weather : ToolHandler := replying "get_current_weather" "first".
Definition second_weather : ToolHandler := replying "get_current_weather" "second".

(** A registry holding one failing handler, and one holding a replying one. *)
Definition broken_weather : ToolHandler :=
  failing "get_current_weather" (mkExc ValueError "No coordinates found").

Definition with_broken_weather : ServerState :=
  state_after (add_tool_handler broken_weather) initial.

Definition with_first_weather : ServerState :=
  state_after (add_tool_handler first_weather) initial.

(** A sample handler that answers with the reading of the world's clock. *)
Definition clock_reader (n : string) : ToolHandler :=
  {| name := n;
     get_tool_description := Returned (plain_tool n);
     run_tool := fun w _ => Returned [TextContent (now w)] |}.

Definition with_clock_reader : ServerState :=
  state_after (add_tool_handler (clock_reader "get_current_datetime")) initial.

(** The same providers at two times of the day. *)
Definition at_noon : World := {| providers := unreachable; now := "2024-01-01T12:00:00" |}.
Definition at_one : World := {| providers := unreachable; now := "2024-01-01T13:00:00" |}.

(** Three registrations, the third under the name of the first. *)
Definition three_registrations : list ToolHandler :=
  [first_weather; clock_reader "get_current_datetime"; second_weather].

(** A handler whose run is cancelled. *)
Definition cancelled_weather : ToolHandler :=
  failing "get_current_weather" (mkExc CancelledError "").

(** ** The fixtures of [tests/conftest.py] *)

Definition mock_geo_response : PyValue :=
  VDict [("results",
          VList [VDict [("latitude", VFloat (407128 # 10000));
                        ("longitude", VFloat (-740060 # 10000))]])].


Definition mock_weather_response : PyValue :=
  VDict [("hourly",
          VDict [("time", VList [VStr "2024-01-01T12:00"; VStr "2024-01-01T13:00"]);
                 ("temperature_2m", VList [VFloat (20 # 1); VFloat (21 # 1)]);
                 ("relative_humidity_2m", VList [VInt 65; VInt 66]);
                 ("dew_point_2m", VList [VFloat (13 # 1); VFloat (14 # 1)]);
                 ("weather_code", VList [VInt 0; VInt 1])])].

(** Providers that answer every request with status 200 and the given bodies. *)
Definition mock_providers (geo weather : PyValue) : Upstream :=
  {| geocoding_get := fun _ => Response 200 geo;
     weather_get := fun _ _ _ _ => Response 200 weather |}.


(** The two rows of the code table that the fixtures show. *)
Definition two_rows : gmap Z string :=
  <[0 := "Clear sky"]> (<[1 := "Mainly clear"]> ∅).

(** A wording for the examples. *)
Definition sample_wording : WeatherService.Wording :=
  {| WeatherService.missing_argument_text := fun k => "Missing required argument: " +:+ k;
     WeatherService.not_found_text := fun city => "City not found: " +:+ city;
     WeatherService.status_text := fun _ => "Provider returned an error status";
     WeatherService.transport_text := fun msg => "Provider unreachable: " +:+ msg;
     WeatherService.shape_text := "Unexpected response from provider" |}.



Definition new_york : WeatherService.Coordinates :=
  {| WeatherService.latitude := 407128 # 10000;
     WeatherService.longitude := -740060 # 10000 |}.

(** ** More of [server.py]: the six registrations as a sequence *)

(** The handlers of a catalogue in the order in which [register_all_tools]
    registers them. *)
Definition handlers_of (c : Catalogue) : list ToolHandler :=
  [GetCurrentWeatherToolHandler c; GetWeatherByDateRangeToolHandler c;
   GetWeatherDetailsToolHandler c; GetCurrentDateTimeToolHandler c;
   GetTimeZoneInfoToolHandler c; ConvertTimeToolHandler c].

(** A handler whose [get_tool_description] raises [e]. *)
Definition undescribed (n : string) (e : PyExc) : ToolHandler :=
  {| name := n;
     get_tool_description := Raised e;
     run_tool := fun _ _ => Returned [] |}.

(** A catalogue of six handlers with six different names. *)
Definition sample_catalogue : Catalogue :=
  {| GetCurrentWeatherToolHandler := replying "get_current_weather" "weather";
     GetWeatherByDateRangeToolHandler := replying "get_weather_by_date_range" "range";
     GetWeatherDetailsToolHandler := replying "get_weather_details" "details";
     GetCurrentDateTimeToolHandler := clock_reader "get_current_datetime";
     GetTimeZoneInfoToolHandler := replying "get_timezone_info" "zone";
     ConvertTimeToolHandler := replying "convert_time" "converted" |}.

(** The events a computation adds to the log. *)
Definition new_events {A} (m : M A) (s : ServerState) : list Event :=
  drop (length (events s)) (events (state_after m s)).

(** A registry in which the second of three handlers cannot describe itself. *)
Definition with_undescribed : ServerState :=
  after_registering
    [first_weather;
     undescribed "get_timezone_info" (mkExc TypeError "no schema");
     clock_reader "get_current_datetime"].

(** ** [tests/conftest.py]: the server process of the tests *)

Module MCPServerProcess.

(** The machine the tests run on, as far as [MCPServerProcess] acts on it.
    [running] holds the children that [Popen] started and that [stop] has not
    terminated and waited for; the code never looks whether such a child is
    still alive. *)
Record Machine : Type := mkMachine {
  running : list nat;       (* started by [subprocess.Popen], not yet terminated by [stop] *)
  spawned : nat;            (* [Popen] calls so far; the next child's handle *)
  health_requests : nat;    (* [GET {base_url}/health] requests sent so far *)
  sleeps : nat              (* [asyncio.sleep(0.1)] calls so far *)
}.

Record t : Type := mk {
  process : option nat;
  port : Z;
  base_url : string
}.

(** [__init__] *)
Definition init : t :=
  {| process := None; port := 8000; base_url := "http://localhost:8000" |}.

Definition max_retries : nat := 30.

(** The [for _ in range(max_retries)] loop of [start]: [true] when it left
    by [break], [false] when it ran out (the [else] branch). [health k] is
    what the [k]-th health request of the machine's life gets. *)
Fixpoint poll (health : nat -> HttpResult) (retries : nat) (m : Machine) : bool * Machine :=
  match retries with
  | O => (false, m)
  | S retries' =>
      let asked := {| running := running m; spawned := spawned m;
                      health_requests := S (health_requests m); sleeps := sleeps m |} in
      let slept := {| running := running m; spawned := spawned m;
                      health_requests := S (health_requests m); sleeps := S (sleeps m) |} in
      match health (health_requests m) with
      | Response status_code _ =>
          if decide (status_code = 200) then (true, asked)
          else poll health retries' slept
      | RequestError _ => poll health retries' slept      (* [except ...: pass] *)
      end
  end.

Definition start (health : nat -> HttpResult) (self : t) (m : Machine)
  : Outcome unit * (t * Machine) :=
  let child := spawned m in
  let self' := {| process := Some child; port := port self; base_url := base_url self |} in
  let m' := {| running := child :: running m; spawned := S child;
               health_requests := health_requests m; sleeps := sleeps m |} in
  match poll health max_retries m' with
  | (true, m'') => (Returned tt, (self', m''))
  | (false, m'') => (Raised (mkExc RuntimeError "MCP server failed to start"), (self', m''))
  end.

Definition stop (self : t) (m : Machine) : t * Machine :=
  match process self with
  | Some child =>
      ({| process := None; port := port self; base_url := base_url self |},
       {| running := filter (fun c => c ≠ child) (running m); spawned := spawned m;
          health_requests := health_requests m; sleeps := sleeps m |})
  | None => (self, m)
  end.

(** A health answer that ends the polling. *)
Definition healthy (r : HttpResult) : bool :=
  match r with
  | Response status_code _ => bool_decide (status_code = 200)
  | RequestError _ => false
  end.

(** A machine on which nothing has happened yet. *)
Definition idle : Machine :=
  {| running := []; spawned := 0; health_requests := 0; sleeps := 0 |}.

(** A server that refuses two connections, answers 503 once and is then up. *)
Definition slow_start (k : nat) : HttpResult :=
  match k with
  | 0%nat | 1%nat => RequestError "Connection refused"
  | 2%nat => Response 503 VNone
  | _ => Response 200 (VDict [("status", VStr "ok")])
  end.

(** A server that never comes up. *)
Definition never_up (k : nat) : HttpResult := RequestError "Connection refused".

End MCPServerProcess.

(** ** [tests/conftest.py]: the clock and time zone mocks *)

(** [unittest.mock.patch] on one target: the patchers that were started and
    not stopped; the target is replaced by a mock while there is one. *)
Module Patch.

Record Target : Type := mkTarget {
  installed : list nat;    (* started patchers, the latest first *)
  created : nat            (* [patch(...)] calls so far; the next patcher *)
}.

Definition untouched : Target := {| installed := []; created := 0 |}.

(** [patch_obj = patch(target); patch_obj.start()] *)
Definition start (t : Target) : nat * Target :=
  (created t, {| installed := created t :: installed t; created := S (created t) |}).

(** [patch_obj.stop()] *)
Definition stop (t : Target) (p : nat) : Target :=
  {| installed := filter (fun q => q ≠ p) (installed t); created := created t |}.

Definition replaced (t : Target) : bool :=
  match installed t with
  | [] => false
  | _ :: _ => true
  end.

End Patch.

Module MockDateTime.
Section Clock.
Context {DateTime Tz : Type}.
(** [dt.astimezone(tz)] and the real [datetime.now(tz)]. *)
Context (astimezone : DateTime -> Tz -> DateTime) (datetime_now : option Tz -> DateTime).

Record t : Type := mk {
  fixed_time : option DateTime;
  patches : list nat
}.

(** [__init__] *)
Definition init : t := {| fixed_time := None; patches := [] |}.

Definition set_fixed_time (dt : DateTime) (self : t) : t :=
  {| fixed_time := Some dt; patches := patches self |}.

Definition stop_mocking (self : t) (target : Patch.Target) : t * Patch.Target :=
  ({| fixed_time := fixed_time self; patches := [] |},
   fold_left Patch.stop (patches self) target).

Definition start_mocking (self : t) (target : Patch.Target) : t * Patch.Target :=
  let '(self0, target0) :=
    match patches self with
    | [] => (self, target)
    | _ :: _ => stop_mocking self target
    end in
  let '(patch_obj, target1) := Patch.start target0 in
  ({| fixed_time := fixed_time self0; patches := patches self0 ++ [patch_obj] |}, target1).

(** The closure [mock_now] of [start_mocking]; it reads [self.fixed_time]
    when it is called. *)
Definition mock_now (self : t) (tz : option Tz) : DateTime :=
  match fixed_time self, tz with
  | Some fixed, Some zone => astimezone fixed zone
  | Some fixed, None => fixed
  | None, _ => datetime_now tz
  end.

(** [datetime.now(tz)] as the patched module sees it. *)
Definition observed_now (self : t) (target : Patch.Target) (tz : option Tz) : DateTime :=
  if Patch.replaced target then mock_now self tz else datetime_now tz.

(** What a test does with the fixture, one call after the other. *)
Inductive Call : Type :=
| SetFixedTime (dt : DateTime)
| StartMocking
| StopMocking.

Definition call (st : t * Patch.Target) (c : Call) : t * Patch.Target :=
  match c with
  | SetFixedTime dt => (set_fixed_time dt (fst st), snd st)
  | StartMocking => start_mocking (fst st) (snd st)
  | StopMocking => stop_mocking (fst st) (snd st)
  end.

Definition calls (cs : list Call) : t * Patch.Target :=
  fold_left call cs (init, Patch.untouched).

(** The patchers the fixture holds are the ones installed, and there is at
    most one. *)
Definition tidy (st : t * Patch.Target) : Prop :=
  Patch.installed (snd st) = patches (fst st) ∧ (length (patches (fst st)) ≤ 1)%nat.

End Clock.
End MockDateTime.

Module MockTimezone.
Section Zones.
Context {ZoneInfo : Type}.
(** The real [ZoneInfo(name)], which raises for a name it does not know. *)
Context (zoneinfo : string -> Outcome ZoneInfo).

Record t : Type := mk {
  patches : list nat;
  zone_mapping : gmap string ZoneInfo
}.

(** [__init__] *)
Definition init : t := {| patches := []; zone_mapping := ∅ |}.

Definition add_zone (n : string) (zone : ZoneInfo) (self : t) : t :=
  {| patches := patches self; zone_mapping := <[n := zone]> (zone_mapping self) |}.

(** The closure [mock_get_zoneinfo] of [start_mocking]. *)
Definition mock_get_zoneinfo (self : t) (n : string) : Outcome ZoneInfo :=
  match zone_mapping self !! n with
  | Some zone => Returned zone
  | None => zoneinfo n
  end.

(** [add_zone] for each pair, first to last. *)
Definition add_zones (zs : list (string * ZoneInfo)) (self : t) : t :=
  fold_left (fun self' nz => add_zone (fst nz) (snd nz) self') zs self.

(** The zone last added under [n]. *)
Definition last_added (n : string) (zs : list (string * ZoneInfo)) : option ZoneInfo :=
  snd <$> find (fun nz => bool_decide (fst nz = n)) (rev zs).

End Zones.
End MockTimezone.

(** A zone database that knows two names. *)
Definition two_zones (n : string) : Outcome string :=
  if decide (n = "UTC") then Returned "UTC+00:00"
  else if decide (n = "America/New_York") then Returned "UTC-05:00"
  else Raised (mkExc (OtherException "ZoneInfoNotFoundError") n).

(** ** Handlers that act on the world

    The dispatcher once more, with handlers as the source has them: a
    coroutine that is awaited and does things. [Env] is the world outside
    the server as a run finds it and leaves it (what the providers were asked
    and answer, the clock, whatever the handler keeps). A run may also call
    [add_tool_handler]; what it registered, in order, is part of what the run
    gives back. The handlers of the first model are the ones that leave the
    world as it is and register nothing ([embed] below). *)
Module Live.
Section Live.
Context {Env : Type}.

#[warnings="-register-all"] Inductive Handler : Type :=
| mkHandler (name : string) (get_tool_description : Outcome Tool)
    (run_tool : PyValue -> Env -> Outcome (list Content) * Env * list Handler).

Definition name (h : Handler) : string :=
  match h with mkHandler n _ _ => n end.

Definition get_tool_description (h : Handler) : Outcome Tool :=
  match h with mkHandler _ d _ => d end.

Definition run_tool (h : Handler) : PyValue -> Env -> Outcome (list Content) * Env * list Handler :=
  match h with mkHandler _ _ r => r end.

(** The three parts of what a run gives back. *)
Definition result_of (r : Outcome (list Content) * Env * list Handler) : Outcome (list Content) :=
  fst (fst r).
Definition world_of (r : Outcome (list Content) * Env * list Handler) : Env :=
  snd (fst r).
Definition registered_by (r : Outcome (list Content) * Env * list Handler) : list Handler :=
  snd r.

Record State : Type := mkState {
  tool_handlers : PyDict.t Handler;   (* the global registry *)
  events : list Event;                (* oldest first *)
  env : Env                           (* the world outside the server *)
}.

Definition L (A : Type) : Type := State -> Outcome A * State.

Definition ret {A} (a : A) : L A := fun s => (Returned a, s).

Definition bind {A B} (m : L A) (k : A -> L B) : L B :=
  fun s =>
    match m s with
    | (Returned a, s') => k a s'
    | (Raised e, s') => (Raised e, s')
    end.

Definition raise {A} (e : PyExc) : L A := fun s => (Raised e, s).

Definition lift {A} (o : Outcome A) : L A := fun s => (o, s).

Definition read_registry : L (PyDict.t Handler) :=
  fun s => (Returned (tool_handlers s), s).

Definition write_registry (f : PyDict.t Handler -> PyDict.t Handler) : L unit :=
  fun s => (Returned tt,
            {| tool_handlers := f (tool_handlers s); events := events s; env := env s |}).

Definition emit (ev : Event) : L unit :=
  fun s => (Returned tt,
            {| tool_handlers := tool_handlers s; events := events s ++ [ev]; env := env s |}).

Definition try_except {A} (body : L A) (handler : PyExc -> L A) : L A :=
  fun s =>
    match body s with
    | (Returned a, s') => (Returned a, s')
    | (Raised e, s') =>
        if isinstance_Exception e then handler e s' else (Raised e, s')
    end.

Fixpoint for_each {A B} (f : A -> L B) (xs : list A) : L (list B) :=
  match xs with
  | [] => ret []
  | x :: rest => bind (f x) (fun y => bind (for_each f rest) (fun ys => ret (y :: ys)))
  end.

Definition outcome_of {A} (m : L A) (s : State) : Outcome A := fst (m s).
Definition state_after {A} (m : L A) (s : State) : State := snd (m s).

Definition add_tool_handler (tool_handler : Handler) : L unit :=
  bind (write_registry (PyDict.set (name tool_handler) tool_handler))
    (fun _ => emit (log_registered (name tool_handler))).

Fixpoint register_each (hs : list Handler) : L unit :=
  match hs with
  | [] => ret tt
  | h :: rest => bind (add_tool_handler h) (fun _ => register_each rest)
  end.

Definition get_tool_handler (n : string) : L (option Handler) :=
  bind read_registry (fun d => ret (PyDict.get n d)).

Definition list_tools : L (list Tool) :=
  try_except
    (bind read_registry (fun d =>
     bind (for_each (fun handler => lift (get_tool_description handler)) (PyDict.values d))
       (fun tools =>
     bind (emit (log_listed (length tools))) (fun _ =>
     ret tools))))
    (fun e => bind (emit (log_list_error (exc_str e))) (fun _ => raise e)).

(** [await tool_handler.run_tool(arguments)]: the run happens in the world
    as it is, leaves the world it leaves, and what it registered went through
    [add_tool_handler]. *)
Definition await (h : Handler) (arguments : PyValue) : L (list Content) :=
  fun s =>
    let r := run_tool h arguments (env s) in
    (result_of r,
     state_after (register_each (registered_by r))
       {| tool_handlers := tool_handlers s;
          events := events s ++ [await_run_tool (name h) arguments];
          env := world_of r |}).

Definition call_tool_body (n : string) (arguments : PyValue) : L (list Content) :=
  bind (if isinstance_dict arguments then ret tt
        else raise (mkExc RuntimeError "Arguments must be a dictionary")) (fun _ =>
  bind (get_tool_handler n) (fun tool_handler =>
  match tool_handler with
  | None => raise (mkExc ValueError ("Unknown tool: " +:+ n))
  | Some h =>
      bind (emit (log_executing n (keys_of arguments))) (fun _ =>
      bind (await h arguments) (fun result =>
      bind (emit (log_executed n)) (fun _ =>
      ret result)))
  end)).

Definition call_tool_except (n : string) (e : PyExc) : L (list Content) :=
  bind (emit (log_exception n (exc_str e))) (fun _ =>
  bind (emit log_traceback) (fun _ =>
  ret [TextContent (error_text n (exc_str e))])).

Definition call_tool (n : string) (arguments : PyValue) : L (list Content) :=
  try_except (call_tool_body n arguments) (call_tool_except n).

(** What [call_tool] makes of the result of a run: the [except] clause. *)
Definition reported (n : string) (o : Outcome (list Content)) : Outcome (list Content) :=
  match o with
  | Returned r => Returned r
  | Raised e =>
      if isinstance_Exception e
      then Returned [TextContent (error_text n (exc_str e))]
      else Raised e
  end.

(** The events a computation adds to the log. *)
Definition new_events {A} (m : L A) (s : State) : list Event :=
  drop (length (events s)) (events (state_after m s)).


End Live.
End Live.

(** A handler of the first model as a handler here: its run reads the world,
    leaves it as it is and registers nothing. *)
Definition embed (h : ToolHandler) : Live.Handler (Env := World) :=
  Live.mkHandler (name h) (get_tool_description h)
    (fun arguments w => (run_tool h w arguments, w, [])).

Definition embed_state (w : World) (s : ServerState) : Live.State (Env := World) :=
  {| Live.tool_handlers := map (fun kh => (fst kh, embed (snd kh))) (tool_handlers s);
     Live.events := events s;
     Live.env := w |}.

(** A sample world: how many requests the provider has had, and the answer
    it gives. *)
Definition asked (requests : nat) (answer : string) : nat * string := (requests, answer).

(** A handler that asks the provider once and answers with its answer. *)
Definition asking (n : string) : Live.Handler (Env := nat * string) :=
  Live.mkHandler n (Returned (plain_tool n))
    (fun _ e => (Returned [TextContent (snd e)], (S (fst e), snd e), [])).

(** A handler that asks the provider once and then fails. *)
Definition asking_in_vain (n : string) (e : PyExc) : Live.Handler (Env := nat * string) :=
  Live.mkHandler n (Returned (plain_tool n))
    (fun _ w => (Raised e, (S (fst w), snd w), [])).

(** A handler that registers another one while it runs. *)
Definition installing (n : string) (other : Live.Handler (Env := nat * string))
  : Live.Handler (Env := nat * string) :=
  Live.mkHandler n (Returned (plain_tool n))
    (fun _ e => (Returned [], e, [other])).

(** A server with one asking handler, in a world where the provider has not
    been asked yet and answers "sunny". *)
Definition asking_server : Live.State (Env := nat * string) :=
  {| Live.tool_handlers := [("get_current_weather", asking "get_current_weather")];
     Live.events := [];
     Live.env := asked 0 "sunny" |}.


(** * Properties *)

(** ** Dictionary lemmas *)

Section DictFacts.
Context {V : Type}.
Implicit Types (d : PyDict.t V) (k : string) (v : V).

Lemma get_set_eq k v d : PyDict.get k (PyDict.set k v d) = Some v.
Proof.
  induction d as [|[k' v'] d IH]; simpl.
  - by rewrite decide_True.
  - destruct (decide (k = k')) as [->|Hne]; simpl.
    + by rewrite decide_True.
    + by rewrite decide_False.
Qed.

Lemma get_set_ne k k' v d :
  k ≠ k' → PyDict.get k' (PyDict.set k v d) = PyDict.get k' d.
Proof.
  intros Hne. induction d as [|[k0 v0] d IH]; simpl.
  - rewrite decide_False; [done | congruence].
  - destruct (decide (k = k0)) as [->|Hk]; simpl.
    + rewrite !decide_False; [done | congruence | congruence].
    + destruct (decide (k' = k0)); [done | apply IH].
Qed.

Lemma get_None_keys k d : PyDict.get k d = None ↔ k ∉ PyDict.keys d.
Proof.
  induction d as [|[k' v'] d IH]; simpl.
  - split; [intros _; apply not_elem_of_nil | done].
  - rewrite not_elem_of_cons. destruct (decide (k = k')) as [->|Hne].
    + split; [done | intros [? _]; done].
    + rewrite IH. tauto.
Qed.

Lemma set_fresh k v d :
  PyDict.get k d = None → PyDict.set k v d = d ++ [(k, v)].
Proof.
  induction d as [|[k' v'] d IH]; simpl; [done|].
  destruct (decide (k = k')); [done|]. intros H. by rewrite IH.
Qed.

Lemma keys_set_present k v d :
  is_Some (PyDict.get k d) → PyDict.keys (PyDict.set k v d) = PyDict.keys d.
Proof.
  induction d as [|[k' v'] d IH]; simpl.
  - intros [? ?]; done.
  - destruct (decide (k = k')) as [->|Hne]; simpl; [done|].
    intros H. f_equal. by apply IH.
Qed.

Lemma len_set_present k v d :
  is_Some (PyDict.get k d) → PyDict.len (PyDict.set k v d) = PyDict.len d.
Proof.
  intros H. unfold PyDict.len.
  rewrite <- (length_map fst (PyDict.set k v d)), <- (length_map fst d).
  f_equal. by apply keys_set_present.
Qed.

Lemma keys_set k v d :
  PyDict.keys (PyDict.set k v d) =
  if decide (k ∈ PyDict.keys d) then PyDict.keys d else PyDict.keys d ++ [k].
Proof.
  destruct (PyDict.get k d) as [v0|] eqn:Hget.
  - rewrite decide_True.
    + apply keys_set_present. by rewrite Hget.
    + destruct (decide (k ∈ PyDict.keys d)) as [|Hn]; [done|].
      apply get_None_keys in Hn. congruence.
  - rewrite decide_False by by apply get_None_keys.
    rewrite set_fresh by done. unfold PyDict.keys. by rewrite map_app.
Qed.

Lemma keys_set_NoDup k v d :
  NoDup (PyDict.keys d) → NoDup (PyDict.keys (PyDict.set k v d)).
Proof.
  intros Hnd. rewrite keys_set. case_decide; [done|].
  apply NoDup_app. split_and!; [done | | apply NoDup_singleton].
  intros x Hx Hx'. apply list_elem_of_singleton in Hx'. by subst.
Qed.
End DictFacts.

(** ** Registration *)

Lemma add_tool_handler_run h s :
  add_tool_handler h s =
  (Returned tt,
   {| tool_handlers := PyDict.set (name h) h (tool_handlers s);
      events := events s ++ [log_registered (name h)] |}).
Proof. reflexivity. Qed.

Lemma get_tool_handler_run n s :
  get_tool_handler n s = (Returned (PyDict.get n (tool_handlers s)), s).
Proof. reflexivity. Qed.

Lemma register_each_cons h hs s :
  register_each (h :: hs) s = register_each hs (state_after (add_tool_handler h) s).
Proof. reflexivity. Qed.

Lemma register_each_returns hs s : outcome_of (register_each hs) s = Returned tt.
Proof.
  revert s. induction hs as [|h hs IH]; intros s; [done|].
  unfold outcome_of in *. rewrite register_each_cons. apply IH.
Qed.

Lemma find_snoc {A} (p : A → bool) (l : list A) (x : A) :
  find p (l ++ [x]) =
  match find p l with
  | Some y => Some y
  | None => if p x then Some x else None
  end.
Proof.
  induction l as [|y l IH]; simpl; [done|].
  destruct (p y); [done | apply IH].
Qed.

Lemma register_each_get hs : ∀ s n,
  PyDict.get n (tool_handlers (state_after (register_each hs) s)) =
  match most_recent n hs with
  | Some h => Some h
  | None => PyDict.get n (tool_handlers s)
  end.
Proof.
  unfold most_recent, state_after.
  induction hs as [|h hs IH]; intros s n; [done|].
  rewrite register_each_cons, IH. simpl rev. rewrite find_snoc.
  destruct (find _ (rev hs)); [done|].
  unfold state_after. rewrite add_tool_handler_run. simpl tool_handlers.
  case_bool_decide as Hn.
  - subst n. apply get_set_eq.
  - by apply get_set_ne.
Qed.

(** C10. [get_tool_handler] is total: on every name and in every state it
    returns (never raises, leaves the state as it was); after any sequence of
    registrations it returns the handler most recently registered under the
    name, [None] when there is none; right after [add_tool_handler h] it
    returns [h] for [h]'s name. *)
Theorem get_tool_handler_most_recent :
  (∀ n s, ∃ r, get_tool_handler n s = (Returned r, s)) ∧
  (∀ hs n,
     outcome_of (get_tool_handler n) (state_after (register_each hs) initial)
     = Returned (most_recent n hs)) ∧
  (∀ h s,
     outcome_of (get_tool_handler (name h)) (state_after (add_tool_handler h) s)
     = Returned (Some h)).
Proof.
  split_and!.
  - intros n s. eexists. apply get_tool_handler_run.
  - intros hs n. unfold outcome_of. rewrite get_tool_handler_run. simpl.
    rewrite register_each_get. by destruct (most_recent n hs).
  - intros h s. unfold outcome_of, state_after.
    rewrite get_tool_handler_run, add_tool_handler_run. simpl.
    by rewrite get_set_eq.
Qed.

(** C4 as stated fails: registering a second handler under a name that is
    taken raises nothing and stores the new handler in place of the old one. *)
Lemma add_tool_handler_taken_name_overwrites :
  PyDict.get (name second_weather)
    (tool_handlers (state_after (add_tool_handler first_weather) initial))
  = Some first_weather ∧
  add_tool_handler second_weather (state_after (add_tool_handler first_weather) initial)
  = (Returned tt,
     {| tool_handlers := [("get_current_weather", second_weather)];
        events := [log_registered "get_current_weather";
                   log_registered "get_current_weather"] |}) ∧
  second_weather ≠ first_weather.
Proof.
  split_and!; [reflexivity | reflexivity |].
  intros Heq. apply (f_equal (fun h => run_tool h offline VNone)) in Heq.
  discriminate Heq.
Qed.

(** C4, amended. [add_tool_handler h] never raises. A fresh name is appended
    to the registry under the handler's declared name; a name that is taken
    keeps its place and its handler is replaced by [h]. In both cases [h] is
    what the name maps to afterwards, and no other name is touched. *)
Theorem add_tool_handler_inserts_or_replaces : ∀ h s,
  outcome_of (add_tool_handler h) s = Returned tt ∧
  PyDict.get (name h) (tool_handlers (state_after (add_tool_handler h) s)) = Some h ∧
  (∀ n, n ≠ name h →
     PyDict.get n (tool_handlers (state_after (add_tool_handler h) s))
     = PyDict.get n (tool_handlers s)) ∧
  match PyDict.get (name h) (tool_handlers s) with
  | None =>
      tool_handlers (state_after (add_tool_handler h) s)
      = tool_handlers s ++ [(name h, h)]
  | Some _ =>
      PyDict.keys (tool_handlers (state_after (add_tool_handler h) s))
      = PyDict.keys (tool_handlers s)
  end.
Proof.
  intros h s. unfold outcome_of, state_after. rewrite add_tool_handler_run. simpl.
  split_and!.
  - done.
  - apply get_set_eq.
  - intros n Hn. by apply get_set_ne.
  - destruct (PyDict.get (name h) (tool_handlers s)) eqn:Hget.
    + apply keys_set_present. by rewrite Hget.
    + by apply set_fresh.
Qed.

(** ** Dispatch *)

Lemma call_tool_body_run w n arguments s :
  call_tool_body w n arguments s =
  if isinstance_dict arguments then
    match PyDict.get n (tool_handlers s) with
    | None => (Raised (mkExc ValueError ("Unknown tool: " +:+ n)), s)
    | Some h =>
        let s1 := {| tool_handlers := tool_handlers s;
                     events := (events s ++ [log_executing n (keys_of arguments)])
                                 ++ [await_run_tool (name h) arguments] |} in
        match run_tool h w arguments with
        | Returned r =>
            (Returned r,
             {| tool_handlers := tool_handlers s;
                events := events s1 ++ [log_executed n] |})
        | Raised e => (Raised e, s1)
        end
    end
  else (Raised (mkExc RuntimeError "Arguments must be a dictionary"), s).
Proof.
  unfold call_tool_body, bind, get_tool_handler, read_registry, ret, raise, emit, lift.
  destruct (isinstance_dict arguments); [|reflexivity]. simpl.
  destruct (PyDict.get n (tool_handlers s)) as [h|]; [|reflexivity]. simpl.
  destruct (run_tool h w arguments); reflexivity.
Qed.

Lemma call_tool_caught w n arguments s e s1 :
  call_tool_body w n arguments s = (Raised e, s1) →
  isinstance_Exception e = true →
  call_tool w n arguments s =
  (Returned [TextContent (error_text n (exc_str e))],
   {| tool_handlers := tool_handlers s1;
      events := (events s1 ++ [log_exception n (exc_str e)]) ++ [log_traceback] |}).
Proof.
  intros Hbody Hexc. unfold call_tool, try_except. by rewrite Hbody, Hexc.
Qed.

Lemma call_tool_passes w n arguments s :
  call_tool w n arguments s =
  match call_tool_body w n arguments s with
  | (Returned r, s1) => (Returned r, s1)
  | (Raised e, s1) =>
      if isinstance_Exception e then call_tool_except n e s1 else (Raised e, s1)
  end.
Proof. reflexivity. Qed.

(** Both entry points leave the registry as they found it. *)
Lemma call_tool_registry w n arguments s :
  tool_handlers (state_after (call_tool w n arguments) s) = tool_handlers s.
Proof.
  unfold state_after. rewrite call_tool_passes, call_tool_body_run.
  destruct (isinstance_dict arguments); [|done].
  destruct (PyDict.get n (tool_handlers s)) as [h|]; [|done]. simpl.
  destruct (run_tool h w arguments) as [r|e]; [done|].
  by destruct (isinstance_Exception e).
Qed.

(** The dispatcher on sample calls: a handler's content is returned as it
    is; a cancellation is not an [Exception] and is not turned into content. *)
Example call_tool_returns_handler_content :
  call_tool offline "get_current_weather" (VDict [("city", VStr "Taipei")]) with_first_weather
  = (Returned [TextContent "first"],
     {| tool_handlers := [("get_current_weather", first_weather)];
        events := [log_registered "get_current_weather";
                   log_executing "get_current_weather" ["city"];
                   await_run_tool "get_current_weather" (VDict [("city", VStr "Taipei")]);
                   log_executed "get_current_weather"] |}).
Proof. reflexivity. Qed.

Example call_tool_lets_cancellation_through :
  outcome_of (call_tool offline "get_current_weather" (VDict []))
    (after_registering [cancelled_weather])
  = Raised (mkExc CancelledError "").
Proof. reflexivity. Qed.

(** What [call_tool] lets through is never an [Exception]. *)
Lemma call_tool_raises_no_Exception w n arguments s e :
  outcome_of (call_tool w n arguments) s = Raised e → isinstance_Exception e = false.
Proof.
  unfold outcome_of. rewrite call_tool_passes.
  destruct (call_tool_body w n arguments s) as [[r|e'] s1]; [discriminate|].
  destruct (isinstance_Exception e') eqn:He'; [discriminate|].
  simpl. by intros [= <-].
Qed.

Lemma call_tool_events w n arguments s :
  ∃ evs,
    events (state_after (call_tool w n arguments) s) = events s ++ evs ∧
    runs evs =
      if isinstance_dict arguments then
        match PyDict.get n (tool_handlers s) with
        | Some h => [await_run_tool (name h) arguments]
        | None => []
        end
      else [].
Proof.
  unfold state_after. rewrite call_tool_passes, call_tool_body_run.
  unfold call_tool_except, bind, emit, ret.
  destruct (isinstance_dict arguments); simpl.
  - destruct (PyDict.get n (tool_handlers s)) as [h|]; simpl.
    + destruct (run_tool h w arguments) as [r|e]; simpl;
        [|destruct (isinstance_Exception e); simpl];
        eexists; rewrite <- !app_assoc; (split; [reflexivity|]); reflexivity.
    + eexists. rewrite <- !app_assoc. split; reflexivity.
  - eexists. rewrite <- !app_assoc. split; reflexivity.
Qed.

Lemma string_append_assoc (a b c : string) : (a +:+ b) +:+ c = a +:+ (b +:+ c).
Proof.
  induction a as [|x a IH]; [reflexivity|].
  change (String x ((a +:+ b) +:+ c) = String x (a +:+ (b +:+ c))).
  by rewrite IH.
Qed.

(** C1. Whatever failure the [try] block of [call_tool] raises, in the
    argument check, the handler lookup or the handler's run, [call_tool]
    catches it and returns exactly one text content whose body is
    [Error executing tool '<name>': <message>]; the failure does not reach the
    caller. A failure is an instance of [Exception]: what the [except
    Exception] clause is written for. *)
Theorem call_tool_reports_failure : ∀ w n arguments s e s1,
  call_tool_body w n arguments s = (Raised e, s1) →
  isinstance_Exception e = true →
  outcome_of (call_tool w n arguments) s
  = Returned [TextContent ("Error executing tool '" +:+ n +:+ "': " +:+ exc_str e)].
Proof.
  intros w n arguments s e s1 Hbody Hexc. unfold outcome_of.
  by rewrite (call_tool_caught _ _ _ _ _ _ Hbody Hexc).
Qed.

Lemma call_tool_reports_failure_witness :
  outcome_of (call_tool offline "get_current_weather" (VDict [])) with_broken_weather
  = Returned [TextContent "Error executing tool 'get_current_weather': No coordinates found"].
Proof.
  apply (call_tool_reports_failure offline "get_current_weather" (VDict [])
           with_broken_weather (mkExc ValueError "No coordinates found")
           {| tool_handlers := tool_handlers with_broken_weather;
              events := events with_broken_weather
                          ++ [log_executing "get_current_weather" [];
                              await_run_tool "get_current_weather" (VDict [])] |}).
  - reflexivity.
  - reflexivity.
Defined.

(** C2. A call with a name that is not in the registry and an empty argument
    dictionary returns one text content; its body holds the name as given and
    the words [Unknown tool]; nothing is raised. *)
Theorem call_tool_unknown_tool : ∀ w n s,
  PyDict.get n (tool_handlers s) = None →
  outcome_of (call_tool w n (VDict [])) s
  = Returned [TextContent ("Error executing tool '" +:+ n +:+ "': Unknown tool: " +:+ n)] ∧
  mentions ("Error executing tool '" +:+ n +:+ "': Unknown tool: " +:+ n) n ∧
  mentions ("Error executing tool '" +:+ n +:+ "': Unknown tool: " +:+ n) "Unknown tool".
Proof.
  intros w n s Hget. split_and!.
  - unfold outcome_of. rewrite call_tool_passes, call_tool_body_run. simpl.
    rewrite Hget. reflexivity.
  - by exists "Error executing tool '", ("': Unknown tool: " +:+ n).
  - exists ("Error executing tool '" +:+ n +:+ "': "), (": " +:+ n).
    by rewrite !string_append_assoc.
Qed.

Lemma call_tool_unknown_tool_witness :
  outcome_of (call_tool offline "get_tides" (VDict [])) with_first_weather
  = Returned [TextContent "Error executing tool 'get_tides': Unknown tool: get_tides"] ∧
  mentions "Error executing tool 'get_tides': Unknown tool: get_tides" "get_tides" ∧
  mentions "Error executing tool 'get_tides': Unknown tool: get_tides" "Unknown tool".
Proof. apply (call_tool_unknown_tool offline "get_tides" with_first_weather). reflexivity. Defined.

(** C3. When the arguments are not a dictionary the [try] block raises at its
    first statement, with the registry not consulted (the same exception in
    every state) and no handler run (the state is left as it was);
    [call_tool] turns it into one error text. The spec's InvalidArgumentError
    is, in the source, [RuntimeError("Arguments must be a dictionary")]. *)
Theorem call_tool_rejects_non_dict : ∀ w n arguments s,
  isinstance_dict arguments = false →
  (∀ s0, call_tool_body w n arguments s0
         = (Raised (mkExc RuntimeError "Arguments must be a dictionary"), s0)) ∧
  runs (events (state_after (call_tool w n arguments) s)) = runs (events s) ∧
  outcome_of (call_tool w n arguments) s
  = Returned [TextContent
                ("Error executing tool '" +:+ n +:+ "': Arguments must be a dictionary")].
Proof.
  intros w n arguments s Hnd. split_and!.
  - intros s0. by rewrite call_tool_body_run, Hnd.
  - destruct (call_tool_events w n arguments s) as (evs & -> & Hruns).
    rewrite Hnd in Hruns. unfold runs in *. by rewrite filter_app, Hruns, app_nil_r.
  - unfold outcome_of. by rewrite call_tool_passes, call_tool_body_run, Hnd.
Qed.

Lemma call_tool_rejects_non_dict_witness :
  (∀ s0, call_tool_body offline "get_current_weather" (VStr "Taipei") s0
         = (Raised (mkExc RuntimeError "Arguments must be a dictionary"), s0)) ∧
  runs (events (state_after (call_tool offline "get_current_weather" (VStr "Taipei"))
                  with_first_weather))
  = runs (events with_first_weather) ∧
  outcome_of (call_tool offline "get_current_weather" (VStr "Taipei")) with_first_weather
  = Returned [TextContent
                "Error executing tool 'get_current_weather': Arguments must be a dictionary"].
Proof.
  apply (call_tool_rejects_non_dict offline "get_current_weather" (VStr "Taipei")
           with_first_weather).
  reflexivity.
Defined.

(** ** Listing *)

Lemma for_each_lift {A B} (f : A → Outcome B) (xs : list A) (s : ServerState) :
  for_each (fun x => lift (f x)) xs s = (collect (map f xs), s).
Proof.
  induction xs as [|x xs IH]; [reflexivity|].
  simpl. unfold bind, lift at 1. destruct (f x) as [b|e]; [|reflexivity].
  rewrite IH. by destruct (collect (map f xs)).
Qed.

Lemma list_tools_run s :
  list_tools s =
  match collect (map get_tool_description (PyDict.values (tool_handlers s))) with
  | Returned tools =>
      (Returned tools,
       {| tool_handlers := tool_handlers s;
          events := events s ++ [log_listed (length tools)] |})
  | Raised e =>
      if isinstance_Exception e then
        (Raised e,
         {| tool_handlers := tool_handlers s;
            events := events s ++ [log_list_error (exc_str e)] |})
      else (Raised e, s)
  end.
Proof.
  unfold list_tools, try_except, bind at 1, read_registry.
  unfold bind at 1. rewrite for_each_lift.
  destruct (collect _) as [tools|e]; [reflexivity|].
  by destruct (isinstance_Exception e).
Qed.

Lemma list_tools_registry s :
  tool_handlers (state_after list_tools s) = tool_handlers s.
Proof.
  unfold state_after. rewrite list_tools_run.
  destruct (collect _) as [tools|e]; [done|].
  by destruct (isinstance_Exception e).
Qed.

Lemma list_tools_runs s :
  runs (events (state_after list_tools s)) = runs (events s).
Proof.
  unfold state_after. rewrite list_tools_run.
  destruct (collect _) as [tools|e]; simpl.
  - unfold runs. by rewrite filter_app, app_nil_r.
  - destruct (isinstance_Exception e); simpl; [|done].
    unfold runs. by rewrite filter_app, app_nil_r.
Qed.

Lemma serve_registry rs : ∀ s, tool_handlers (serve rs s) = tool_handlers s.
Proof.
  unfold serve. induction rs as [|r rs IH]; intros s; [done|].
  simpl. rewrite IH. destruct r as [|w n arguments]; simpl.
  - apply list_tools_registry.
  - apply call_tool_registry.
Qed.

Lemma call_tool_outcome_registry w n arguments s1 s2 :
  tool_handlers s1 = tool_handlers s2 →
  outcome_of (call_tool w n arguments) s1 = outcome_of (call_tool w n arguments) s2.
Proof.
  intros Hreg. unfold outcome_of.
  rewrite !call_tool_passes, !call_tool_body_run, Hreg.
  destruct (isinstance_dict arguments); [|done].
  destruct (PyDict.get n (tool_handlers s2)) as [h|]; [|done]. simpl.
  destruct (run_tool h w arguments) as [r|e]; [done|].
  by destruct (isinstance_Exception e).
Qed.

(** The run markers in the log: a call adds none when the arguments are not a
    dictionary or the name is not registered, and one otherwise; neither entry
    point changes the registry of this model. *)
Lemma call_tool_run_markers : ∀ w n arguments s,
  (∃ evs,
     events (state_after (call_tool w n arguments) s) = events s ++ evs ∧
     runs evs =
       (if isinstance_dict arguments then
          match PyDict.get n (tool_handlers s) with
          | Some h => [await_run_tool (name h) arguments]
          | None => []
          end
        else []) ∧
     (length (runs evs) ≤ 1)%nat) ∧
  tool_handlers (state_after (call_tool w n arguments) s) = tool_handlers s ∧
  PyDict.keys (tool_handlers (state_after (call_tool w n arguments) s))
  = PyDict.keys (tool_handlers s) ∧
  tool_handlers (state_after list_tools s) = tool_handlers s ∧
  PyDict.keys (tool_handlers (state_after list_tools s)) = PyDict.keys (tool_handlers s) ∧
  runs (events (state_after list_tools s)) = runs (events s).
Proof.
  intros w n arguments s. split_and!.
  - destruct (call_tool_events w n arguments s) as (evs & Hevs & Hruns).
    exists evs. split_and!; [done | done |]. rewrite Hruns.
    destruct (isinstance_dict arguments); simpl; [|lia].
    destruct (PyDict.get n (tool_handlers s)); simpl; lia.
  - apply call_tool_registry.
  - by rewrite call_tool_registry.
  - apply list_tools_registry.
  - by rewrite list_tools_registry.
  - apply list_tools_runs.
Qed.

(** In this model a call's outcome is read off the registry, the world and
    the arguments, so it is the same after any requests served in between. *)
Lemma call_tool_repeatable : ∀ w n arguments between s,
  outcome_of (call_tool w n arguments)
    (serve (CallTool w n arguments :: between) s)
  = outcome_of (call_tool w n arguments) s.
Proof.
  intros w n arguments between s.
  apply call_tool_outcome_registry. apply serve_registry.
Qed.

(** ** The registry after a sequence of registrations *)

Lemma register_each_keys hs : ∀ s,
  PyDict.keys (tool_handlers (state_after (register_each hs) s))
  = first_seen (PyDict.keys (tool_handlers s)) (map name hs).
Proof.
  unfold state_after.
  induction hs as [|h hs IH]; intros s; [done|].
  rewrite register_each_cons, IH. unfold state_after.
  rewrite add_tool_handler_run. simpl. rewrite keys_set.
  by destruct (decide (name h ∈ PyDict.keys (tool_handlers s))).
Qed.

Lemma first_seen_NoDup ns : ∀ seen, NoDup seen → NoDup (first_seen seen ns).
Proof.
  induction ns as [|n ns IH]; intros seen Hnd; [done|].
  simpl. case_decide as Hin; [by apply IH|].
  apply IH. apply NoDup_app. split_and!; [done | | apply NoDup_singleton].
  intros x Hx Hx'. apply list_elem_of_singleton in Hx'. by subst.
Qed.

Lemma first_seen_elem ns : ∀ seen n, n ∈ first_seen seen ns ↔ n ∈ seen ∨ n ∈ ns.
Proof.
  induction ns as [|m ns IH]; intros seen n; simpl.
  - rewrite elem_of_nil. tauto.
  - rewrite elem_of_cons. case_decide as Hin; rewrite IH.
    + split; [tauto|]. intros [?|[->|?]]; tauto.
    + rewrite elem_of_app, list_elem_of_singleton. tauto.
Qed.

Lemma first_seen_distinct ns : ∀ seen,
  NoDup (seen ++ ns) → first_seen seen ns = seen ++ ns.
Proof.
  induction ns as [|n ns IH]; intros seen Hnd; simpl.
  - by rewrite app_nil_r.
  - rewrite decide_False.
    + rewrite IH; rewrite <- app_assoc; done.
    + apply NoDup_app in Hnd as (_ & Hdisj & _). intros Hin.
      apply (Hdisj n Hin). apply elem_of_cons. by left.
Qed.

Lemma set_keyed_by_name h d :
  keyed_by_name d → keyed_by_name (PyDict.set (name h) h d).
Proof.
  unfold keyed_by_name. induction d as [|[k v] d IH]; intros Hk; simpl.
  - by constructor.
  - inversion Hk; subst. case_decide; constructor; auto.
Qed.

Lemma register_each_keyed hs : ∀ s,
  keyed_by_name (tool_handlers s) →
  keyed_by_name (tool_handlers (state_after (register_each hs) s)).
Proof.
  unfold state_after. induction hs as [|h hs IH]; intros s Hk; [done|].
  rewrite register_each_cons. apply IH. unfold state_after.
  rewrite add_tool_handler_run. simpl. by apply set_keyed_by_name.
Qed.

Lemma elem_get {V} (d : PyDict.t V) k v :
  NoDup (PyDict.keys d) → (k, v) ∈ d → PyDict.get k d = Some v.
Proof.
  induction d as [|[k' v'] d IH]; simpl; intros Hnd Hin.
  - by apply elem_of_nil in Hin.
  - apply NoDup_cons in Hnd as [Hk' Hnd].
    apply elem_of_cons in Hin as [Heq|Hin].
    + inversion Heq; subst. by rewrite decide_True.
    + rewrite decide_False; [by apply IH|].
      intros ->. apply Hk'. apply list_elem_of_fmap. by exists (k', v).
Qed.

Lemma most_recent_elem n hs h :
  most_recent n hs = Some h → h ∈ hs ∧ name h = n.
Proof.
  unfold most_recent. intros Hfind. apply find_some in Hfind as [Hin Hp].
  split.
  - apply list_elem_of_In. by apply in_rev.
  - by apply bool_decide_eq_true in Hp.
Qed.

Lemma registered_most_recent hs k h :
  (k, h) ∈ tool_handlers (state_after (register_each hs) initial) →
  k = name h ∧ most_recent (name h) hs = Some h.
Proof.
  intros Hin.
  assert (k = name h) as ->.
  { pose proof (register_each_keyed hs initial (Forall_nil_2 _)) as Hk.
    unfold keyed_by_name in Hk. rewrite Forall_forall in Hk.
    apply (Hk (k, h) Hin). }
  split; [done|].
  assert (PyDict.get (name h) (tool_handlers (state_after (register_each hs) initial))
          = Some h) as Hget.
  { apply elem_get; [|done]. rewrite register_each_keys.
    apply first_seen_NoDup, NoDup_nil_2. }
  rewrite register_each_get in Hget.
  by destruct (most_recent (name h) hs).
Qed.

Lemma collect_descriptions (hs : list ToolHandler) :
  Forall describes_itself hs →
  ∃ tools,
    collect (map get_tool_description hs) = Returned tools ∧
    Forall2 (fun h t => get_tool_description h = Returned t ∧ tool_name t = name h)
      hs tools.
Proof.
  induction hs as [|h hs IH]; intros Hall.
  - exists []. split; [done | constructor].
  - inversion Hall as [|? ? (t & Ht & Hn) Hrest]; subst.
    destruct (IH Hrest) as (tools & Hc & Hf).
    exists (t :: tools). simpl. rewrite Ht, Hc. split; [done|].
    by constructor.
Qed.

Lemma register_each_distinct hs : ∀ s,
  NoDup (PyDict.keys (tool_handlers s) ++ map name hs) →
  tool_handlers (state_after (register_each hs) s)
  = tool_handlers s ++ map (fun h => (name h, h)) hs.
Proof.
  induction hs as [|h hs IH]; intros s Hnd.
  - simpl. by rewrite app_nil_r.
  - assert (PyDict.get (name h) (tool_handlers s) = None) as Hfresh.
    { apply get_None_keys. apply NoDup_app in Hnd as (_ & Hdisj & _).
      intros Hin. apply (Hdisj _ Hin). apply elem_of_cons. by left. }
    unfold state_after at 1. rewrite register_each_cons.
    fold (state_after (register_each hs) (state_after (add_tool_handler h) s)).
    rewrite IH; unfold state_after; rewrite add_tool_handler_run; simpl;
      rewrite (set_fresh _ _ _ Hfresh).
    + by rewrite <- app_assoc.
    + unfold PyDict.keys. rewrite map_app. simpl. by rewrite <- app_assoc.
Qed.

Lemma keyed_names d : keyed_by_name d → map name (PyDict.values d) = PyDict.keys d.
Proof.
  unfold keyed_by_name, PyDict.values, PyDict.keys.
  induction 1 as [|[k h] d Hk _ IH]; simpl; [done|].
  simpl in Hk. by rewrite IH, Hk.
Qed.

Lemma described_names hs tools :
  Forall2 (fun h t => get_tool_description h = Returned t ∧ tool_name t = name h) hs tools →
  map tool_name tools = map name hs.
Proof.
  induction 1 as [|h t hs tools [_ Hn] _ IH]; simpl; [done|]. by rewrite IH, Hn.
Qed.

Lemma register_all_tools_registers c s :
  tool_handlers (state_after (register_all_tools c) s)
  = tool_handlers
      (state_after
         (register_each
            [GetCurrentWeatherToolHandler c; GetWeatherByDateRangeToolHandler c;
             GetWeatherDetailsToolHandler c; GetCurrentDateTimeToolHandler c;
             GetTimeZoneInfoToolHandler c; ConvertTimeToolHandler c]) s).
Proof. reflexivity. Qed.

Example list_tools_three_registrations :
  outcome_of list_tools (after_registering three_registrations)
  = Returned [plain_tool "get_current_weather"; plain_tool "get_current_datetime"].
Proof. reflexivity. Qed.

(** [register_all_tools] on six handlers with six names leaves them in the
    registry in the order of the source. *)
Lemma register_all_tools_values c :
  NoDup (map name
           [GetCurrentWeatherToolHandler c; GetWeatherByDateRangeToolHandler c;
            GetWeatherDetailsToolHandler c; GetCurrentDateTimeToolHandler c;
            GetTimeZoneInfoToolHandler c; ConvertTimeToolHandler c]) →
  PyDict.values (tool_handlers (state_after (register_all_tools c) initial))
  = [GetCurrentWeatherToolHandler c; GetWeatherByDateRangeToolHandler c;
     GetWeatherDetailsToolHandler c; GetCurrentDateTimeToolHandler c;
     GetTimeZoneInfoToolHandler c; ConvertTimeToolHandler c].
Proof.
  intros Hnd. rewrite register_all_tools_registers.
  rewrite register_each_distinct by done. reflexivity.
Qed.

(** C5. After any sequence of registrations, with handlers whose description
    carries their own name, [list_tools] returns one descriptor per registered
    handler, in the order of the registry, each being that handler's
    description under that handler's name. The registered handlers are the
    ones most recently registered under their names; the names listed are
    pairwise distinct, every registered name is listed, and they come in the
    order in which the names were first registered (for handlers with distinct
    names: the order of registration, one descriptor per registration). *)
Theorem list_tools_one_descriptor_per_handler : ∀ hs,
  Forall describes_itself hs →
  ∃ tools,
    outcome_of list_tools (after_registering hs) = Returned tools ∧
    Forall2 (fun h t => get_tool_description h = Returned t ∧ tool_name t = name h)
      (PyDict.values (tool_handlers (after_registering hs))) tools ∧
    Forall (fun h => most_recent (name h) hs = Some h)
      (PyDict.values (tool_handlers (after_registering hs))) ∧
    map tool_name tools = first_seen [] (map name hs) ∧
    NoDup (map tool_name tools) ∧
    (∀ h, h ∈ hs → name h ∈ map tool_name tools) ∧
    (NoDup (map name hs) →
       PyDict.values (tool_handlers (after_registering hs)) = hs).
Proof.
  intros hs Hall. unfold after_registering.
  set (d := tool_handlers (state_after (register_each hs) initial)).
  assert (Forall (fun h => most_recent (name h) hs = Some h) (PyDict.values d)) as Hrecent.
  { apply Forall_forall. intros h Hin. unfold PyDict.values in Hin.
    apply list_elem_of_fmap in Hin as ([k h'] & -> & Hin). simpl.
    by apply (registered_most_recent hs k h'). }
  assert (Forall describes_itself (PyDict.values d)) as Hdesc.
  { rewrite Forall_forall in Hrecent, Hall. apply Forall_forall. intros h Hin.
    apply Hall. by apply (most_recent_elem (name h) hs h), Hrecent. }
  destruct (collect_descriptions _ Hdesc) as (tools & Hcollect & Hf2).
  assert (map tool_name tools = first_seen [] (map name hs)) as Hnames.
  { rewrite (described_names _ _ Hf2), keyed_names.
    - apply (register_each_keys hs initial).
    - apply (register_each_keyed hs initial), Forall_nil_2. }
  exists tools. split_and!.
  - unfold outcome_of. rewrite list_tools_run. fold d. by rewrite Hcollect.
  - done.
  - done.
  - done.
  - rewrite Hnames. apply first_seen_NoDup, NoDup_nil_2.
  - intros h Hin. rewrite Hnames. apply first_seen_elem. right.
    apply list_elem_of_fmap. by exists h.
  - intros Hnd. unfold d. rewrite register_each_distinct by done. simpl.
    unfold PyDict.values. rewrite map_map. simpl. apply map_id.
Qed.

Lemma list_tools_one_descriptor_per_handler_witness :
  ∃ tools,
    outcome_of list_tools (after_registering three_registrations) = Returned tools ∧
    Forall2 (fun h t => get_tool_description h = Returned t ∧ tool_name t = name h)
      (PyDict.values (tool_handlers (after_registering three_registrations)))
      tools ∧
    Forall (fun h => most_recent (name h) three_registrations = Some h)
      (PyDict.values (tool_handlers (after_registering three_registrations))) ∧
    map tool_name tools = first_seen [] (map name three_registrations) ∧
    NoDup (map tool_name tools) ∧
    (∀ h, h ∈ three_registrations → name h ∈ map tool_name tools) ∧
    (NoDup (map name three_registrations) →
       PyDict.values (tool_handlers (after_registering three_registrations))
       = three_registrations).
Proof.
  apply (list_tools_one_descriptor_per_handler three_registrations).
  repeat constructor; eexists; (split; [reflexivity|]); reflexivity.
Defined.

(** ** The weather service *)

Section WeatherFacts.
Import WeatherService.

Lemma zip5_Forall {A B C D E R} (f : A → B → C → D → E → R) (P : R → Prop) :
  (∀ a b c d e, P (f a b c d e)) →
  ∀ la lb lc ld le rs, zip5 f la lb lc ld le = Some rs → Forall P rs.
Proof.
  intros HP. induction la as [|a la IH]; intros [|b lb] [|c lc] [|d ld] [|e le] rs;
    simpl; try discriminate.
  - intros [= <-]. constructor.
  - destruct (zip5 f la lb lc ld le) as [rest|] eqn:Hrest; simpl; [|discriminate].
    intros [= <-]. constructor; [apply HP | by eapply IH].
Qed.

Lemma zip5_None {A B C D E R R'} (f : A → B → C → D → E → R) (g : A → B → C → D → E → R') :
  ∀ la lb lc ld le,
    zip5 f la lb lc ld le = None → zip5 g la lb lc ld le = None.
Proof.
  induction la as [|a la IH]; intros [|b lb] [|c lc] [|d ld] [|e le];
    simpl; try done.
  destruct (zip5 f la lb lc ld le) as [rest|] eqn:Hrest; simpl; [discriminate|].
  intros _. by rewrite (IH _ _ _ _ Hrest).
Qed.

Lemma readings_of_described table body rs :
  readings_of table body = Some rs →
  Forall (fun r => weather_description r = describe table (weather_code r)) rs.
Proof.
  unfold readings_of. intros H.
  destruct (json_get "hourly" body) as [hourly|]; simpl in H; [|discriminate].
  destruct (field_array as_str "time" hourly); simpl in H; [|discriminate].
  destruct (field_array as_number "temperature_2m" hourly); simpl in H; [|discriminate].
  destruct (field_array as_number "relative_humidity_2m" hourly); simpl in H; [|discriminate].
  destruct (field_array as_number "dew_point_2m" hourly); simpl in H; [|discriminate].
  destruct (field_array as_int "weather_code" hourly); simpl in H; [|discriminate].
  revert H. by apply zip5_Forall.
Qed.

Lemma readings_of_None table table' body :
  readings_of table body = None → readings_of table' body = None.
Proof.
  unfold readings_of.
  destruct (json_get "hourly" body) as [hourly|]; simpl; [|done].
  destruct (field_array as_str "time" hourly); simpl; [|done].
  destruct (field_array as_number "temperature_2m" hourly); simpl; [|done].
  destruct (field_array as_number "relative_humidity_2m" hourly); simpl; [|done].
  destruct (field_array as_number "dew_point_2m" hourly); simpl; [|done].
  destruct (field_array as_int "weather_code" hourly); simpl; [|done].
  apply zip5_None.
Qed.

Lemma fetch_raises_any_table wd table table' up coords start_date end_date e :
  fetch wd table up coords start_date end_date = Raised e →
  fetch wd table' up coords start_date end_date = Raised e.
Proof.
  unfold fetch.
  destruct (weather_get up _ _ _ _) as [status_code body|msg]; [|done].
  destruct (is_success status_code); [|done].
  destruct (readings_of table body) as [rs|] eqn:Hrs; [discriminate|].
  by rewrite (readings_of_None _ table' _ Hrs).
Qed.
End WeatherFacts.

(** The round trip of the fixtures: the geocoding fixture resolves to New
    York's coordinates, and the weather fixture with the codes 0 and 1 gives
    two readings, described "Clear sky" and "Mainly clear". *)
Example resolve_mock_geo_response :
  WeatherService.resolve sample_wording
    (mock_providers mock_geo_response mock_weather_response) "New York"
  = Returned new_york.
Proof. reflexivity. Qed.

Example fetch_mock_weather_response :
  WeatherService.fetch sample_wording two_rows
    (mock_providers mock_geo_response mock_weather_response)
    new_york "2024-01-01" "2024-01-01"
  = Returned
      [WeatherService.mkReading "2024-01-01T12:00" (20 # 1) (inject_Z 65) (13 # 1) 0 "Clear sky";
       WeatherService.mkReading "2024-01-01T13:00" (21 # 1) (inject_Z 66) (14 # 1) 1 "Mainly clear"].
Proof. vm_compute. reflexivity. Qed.

Example describe_unlisted_code : WeatherService.describe two_rows 99 = "Unknown".
Proof. reflexivity. Qed.




(** C9. Every reading that Weather Lookup returns is described by the table's
    translation of its weather code: "Clear sky" for the code 0 and "Mainly
    clear" for the code 1; a code the table does not have is described as
    "Unknown", and it is never the table that makes the lookup fail: a lookup
    that fails, fails in the same way with a table that knows every code or
    none. *)
Theorem weather_description_from_table :
  ∀ (wd : WeatherService.Wording) (table : gmap Z string),
    table !! 0 = Some "Clear sky" →
    table !! 1 = Some "Mainly clear" →
    (∀ up coords start_date end_date readings,
       WeatherService.fetch wd table up coords start_date end_date = Returned readings →
       Forall (fun r => WeatherService.weather_description r
                        = WeatherService.describe table (WeatherService.weather_code r))
         readings) ∧
    WeatherService.describe table 0 = "Clear sky" ∧
    WeatherService.describe table 1 = "Mainly clear" ∧
    (∀ code, table !! code = None → WeatherService.describe table code = "Unknown") ∧
    (∀ table' up coords start_date end_date e,
       WeatherService.fetch wd table up coords start_date end_date = Raised e →
       WeatherService.fetch wd table' up coords start_date end_date = Raised e).
Proof.
  intros wd table H0 H1. split_and!.
  - intros up coords start_date end_date readings Hfetch.
    unfold WeatherService.fetch in Hfetch.
    destruct (weather_get up _ _ _ _) as [status_code body|msg]; [|discriminate].
    destruct (WeatherService.is_success status_code); [|discriminate].
    destruct (WeatherService.readings_of table body) as [rs|] eqn:Hrs; [|discriminate].
    injection Hfetch as <-. by apply readings_of_described with body.
  - unfold WeatherService.describe. by rewrite H0.
  - unfold WeatherService.describe. by rewrite H1.
  - intros code Hnone. unfold WeatherService.describe. by rewrite Hnone.
  - intros table' up coords start_date end_date e. apply fetch_raises_any_table.
Qed.

Lemma weather_description_from_table_witness :
  (∀ up coords start_date end_date readings,
     WeatherService.fetch sample_wording two_rows up coords start_date end_date
     = Returned readings →
     Forall (fun r => WeatherService.weather_description r
                      = WeatherService.describe two_rows (WeatherService.weather_code r))
       readings) ∧
  WeatherService.describe two_rows 0 = "Clear sky" ∧
  WeatherService.describe two_rows 1 = "Mainly clear" ∧
  (∀ code, two_rows !! code = None → WeatherService.describe two_rows code = "Unknown") ∧
  (∀ table' up coords start_date end_date e,
     WeatherService.fetch sample_wording two_rows up coords start_date end_date = Raised e →
     WeatherService.fetch sample_wording table' up coords start_date end_date = Raised e).
Proof.
  apply (weather_description_from_table sample_wording two_rows); reflexivity.
Defined.

(** * Further properties of [server.py] *)

(** ** Dictionaries with distinct keys *)

Lemma dict_ext {V} (d1 d2 : PyDict.t V) :
  NoDup (PyDict.keys d1) →
  PyDict.keys d1 = PyDict.keys d2 →
  (∀ k, PyDict.get k d1 = PyDict.get k d2) →
  d1 = d2.
Proof.
  revert d2. induction d1 as [|[k v] d1 IH]; intros [|[k' v'] d2] Hnd Hkeys Hget;
    simpl in *; try discriminate; [done|].
  injection Hkeys as -> Hkeys. apply NoDup_cons in Hnd as [Hk Hnd].
  pose proof (Hget k') as Hk'. destruct (decide (k' = k')); [|done].
  injection Hk' as ->. f_equal. apply IH; [done | done |].
  intros k. specialize (Hget k). simpl in Hget.
  destruct (decide (k = k')) as [->|Hne]; [|done].
  assert (PyDict.get k' d1 = None) as -> by by apply get_None_keys.
  symmetry. apply get_None_keys. fold (PyDict.keys d1) in Hkeys. by rewrite <- Hkeys.
Qed.

Lemma first_seen_all_seen ns : ∀ seen,
  (∀ n, n ∈ ns → n ∈ seen) → first_seen seen ns = seen.
Proof.
  induction ns as [|n ns IH]; intros seen Hall; simpl; [done|].
  rewrite decide_True by (apply Hall; left). apply IH.
  intros m Hm. apply Hall. by right.
Qed.

Lemma first_seen_length ns : ∀ seen,
  (length seen ≤ length (first_seen seen ns) ≤ length seen + length ns)%nat.
Proof.
  induction ns as [|n ns IH]; intros seen; simpl; [lia|].
  case_decide.
  - specialize (IH seen). lia.
  - specialize (IH (seen ++ [n])). rewrite length_app in IH. simpl in IH. lia.
Qed.

Lemma first_seen_grows n ns : (1 ≤ length (first_seen [] (n :: ns)))%nat.
Proof.
  change (first_seen [] (n :: ns))
    with (if decide (n ∈ []) then first_seen [] ns else first_seen ([] ++ [n]) ns).
  rewrite decide_False by apply not_elem_of_nil.
  pose proof (first_seen_length ns ([] ++ [n])) as [H _]. simpl in *. lia.
Qed.

Lemma after_registering_NoDup hs0 hs :
  NoDup (PyDict.keys (tool_handlers (state_after (register_each hs) (after_registering hs0)))).
Proof.
  rewrite register_each_keys. apply first_seen_NoDup.
  unfold after_registering. rewrite register_each_keys.
  apply first_seen_NoDup, NoDup_nil_2.
Qed.

Lemma register_each_again hs s :
  NoDup (PyDict.keys (tool_handlers s)) →
  tool_handlers (state_after (register_each hs) (state_after (register_each hs) s))
  = tool_handlers (state_after (register_each hs) s).
Proof.
  intros Hnd. apply dict_ext.
  - rewrite !register_each_keys. by do 2 apply first_seen_NoDup.
  - rewrite (register_each_keys hs (state_after _ _)). apply first_seen_all_seen.
    intros n Hn. rewrite register_each_keys. apply first_seen_elem. by right.
  - intros k. rewrite (register_each_get hs (state_after _ _)).
    rewrite register_each_get. by destruct (most_recent k hs).
Qed.

(** ** What [call_tool] returns, raises and logs *)

Lemma call_tool_new_events w n arguments s :
  new_events (call_tool w n arguments) s =
  if isinstance_dict arguments then
    match PyDict.get n (tool_handlers s) with
    | None => [log_exception n ("Unknown tool: " +:+ n); log_traceback]
    | Some h =>
        [log_executing n (keys_of arguments); await_run_tool (name h) arguments] ++
        match run_tool h w arguments with
        | Returned _ => [log_executed n]
        | Raised e =>
            if isinstance_Exception e
            then [log_exception n (exc_str e); log_traceback] else []
        end
    end
  else [log_exception n "Arguments must be a dictionary"; log_traceback].
Proof.
  unfold new_events, state_after. rewrite call_tool_passes, call_tool_body_run.
  unfold call_tool_except, bind, emit, ret.
  destruct (isinstance_dict arguments); simpl.
  - destruct (PyDict.get n (tool_handlers s)) as [h|]; simpl.
    + destruct (run_tool h w arguments) as [r|e]; simpl;
        [|destruct (isinstance_Exception e); simpl];
        rewrite <- !app_assoc; by rewrite drop_app_length.
    + rewrite <- !app_assoc. by rewrite drop_app_length.
  - rewrite <- !app_assoc. by rewrite drop_app_length.
Qed.

(** X1. What [call_tool] raises is never an [Exception] (so never the
    [RuntimeError] its docstring announces): a raise of [call_tool] is the
    raise of the registered handler's own run, on dictionary arguments, of
    something that is not an [Exception]. *)
Theorem call_tool_raises_only_handler_signal : ∀ w n arguments s e,
  outcome_of (call_tool w n arguments) s = Raised e →
  isinstance_Exception e = false ∧
  isinstance_dict arguments = true ∧
  ∃ h, PyDict.get n (tool_handlers s) = Some h ∧ run_tool h w arguments = Raised e.
Proof.
  intros w n arguments s e. unfold outcome_of.
  rewrite call_tool_passes, call_tool_body_run.
  destruct (isinstance_dict arguments); [|discriminate].
  destruct (PyDict.get n (tool_handlers s)) as [h|]; [|discriminate]. simpl.
  destruct (run_tool h w arguments) as [r|e'] eqn:Hrun; [discriminate|].
  destruct (isinstance_Exception e') eqn:He'; [discriminate|].
  simpl. intros [= <-]. split_and!; [done | done |]. by exists h.
Qed.

Lemma call_tool_raises_only_handler_signal_witness :
  isinstance_Exception (mkExc CancelledError "") = false ∧
  isinstance_dict (VDict []) = true ∧
  ∃ h, PyDict.get "get_current_weather"
         (tool_handlers (after_registering [cancelled_weather])) = Some h ∧
       run_tool h offline (VDict []) = Raised (mkExc CancelledError "").
Proof.
  apply (call_tool_raises_only_handler_signal offline "get_current_weather" (VDict [])
           (after_registering [cancelled_weather])).
  reflexivity.
Defined.

(** X2. When the arguments are a dictionary, the name is registered and the
    handler's run returns, [call_tool] returns the handler's content as it is
    (whatever its length and kinds), leaves the registry alone and logs the
    start, the run and the success, in this order. *)
Theorem call_tool_passes_content_through : ∀ w n arguments s h r,
  isinstance_dict arguments = true →
  PyDict.get n (tool_handlers s) = Some h →
  run_tool h w arguments = Returned r →
  call_tool w n arguments s =
  (Returned r,
   {| tool_handlers := tool_handlers s;
      events := events s ++ [log_executing n (keys_of arguments);
                             await_run_tool (name h) arguments;
                             log_executed n] |}).
Proof.
  intros w n arguments s h r Hdict Hget Hrun.
  rewrite call_tool_passes, call_tool_body_run, Hdict, Hget. simpl.
  rewrite Hrun. by rewrite <- !app_assoc.
Qed.

Lemma call_tool_passes_content_through_witness :
  call_tool at_noon "get_current_datetime" (VDict [("timezone", VStr "UTC")]) with_clock_reader
  = (Returned [TextContent "2024-01-01T12:00:00"],
     {| tool_handlers := tool_handlers with_clock_reader;
        events := events with_clock_reader
                    ++ [log_executing "get_current_datetime" ["timezone"];
                        await_run_tool "get_current_datetime"
                          (VDict [("timezone", VStr "UTC")]);
                        log_executed "get_current_datetime"] |}).
Proof.
  apply (call_tool_passes_content_through at_noon "get_current_datetime"
           (VDict [("timezone", VStr "UTC")]) with_clock_reader
           (clock_reader "get_current_datetime")); reflexivity.
Defined.

(** X3. The message [call_tool] reports is the message it logs: whenever a
    call logs an exception line with a message, the call returns the one
    error text built from the same message, the traceback line directly
    follows, and no success line is logged. *)
Theorem call_tool_reports_what_it_logs : ∀ w n arguments s msg,
  log_exception n msg ∈ new_events (call_tool w n arguments) s →
  outcome_of (call_tool w n arguments) s = Returned [TextContent (error_text n msg)] ∧
  (∃ before, new_events (call_tool w n arguments) s
             = before ++ [log_exception n msg; log_traceback]) ∧
  log_executed n ∉ new_events (call_tool w n arguments) s.
Proof.
  intros w n arguments s msg. rewrite call_tool_new_events. unfold outcome_of.
  rewrite call_tool_passes, call_tool_body_run.
  destruct (isinstance_dict arguments); simpl.
  - destruct (PyDict.get n (tool_handlers s)) as [h|]; simpl.
    + destruct (run_tool h w arguments) as [r|e]; simpl.
      * intros Hin. repeat (apply elem_of_cons in Hin as [Hin|Hin]; [discriminate|]).
        by apply elem_of_nil in Hin.
      * destruct (isinstance_Exception e); simpl; intros Hin;
          repeat (apply elem_of_cons in Hin as [Hin|Hin];
                  [try discriminate|]); try by apply elem_of_nil in Hin.
        injection Hin as <-. split_and!; [done | |].
        -- by exists [log_executing n (keys_of arguments); await_run_tool (name h) arguments].
        -- intros Hex. repeat (apply elem_of_cons in Hex as [Hex|Hex]; [discriminate|]).
           by apply elem_of_nil in Hex.
    + intros Hin. apply elem_of_cons in Hin as [Hin|Hin].
      * injection Hin as <-. split_and!; [done | by exists [] |].
        intros Hex. repeat (apply elem_of_cons in Hex as [Hex|Hex]; [discriminate|]).
        by apply elem_of_nil in Hex.
      * apply elem_of_cons in Hin as [Hin|Hin]; [discriminate | by apply elem_of_nil in Hin].
  - intros Hin. apply elem_of_cons in Hin as [Hin|Hin].
    + injection Hin as <-. split_and!; [done | by exists [] |].
      intros Hex. repeat (apply elem_of_cons in Hex as [Hex|Hex]; [discriminate|]).
      by apply elem_of_nil in Hex.
    + apply elem_of_cons in Hin as [Hin|Hin]; [discriminate | by apply elem_of_nil in Hin].
Qed.

Lemma call_tool_reports_what_it_logs_witness :
  outcome_of (call_tool offline "get_current_weather" (VDict [])) with_broken_weather
  = Returned [TextContent (error_text "get_current_weather" "No coordinates found")] ∧
  (∃ before, new_events (call_tool offline "get_current_weather" (VDict [])) with_broken_weather
             = before ++ [log_exception "get_current_weather" "No coordinates found";
                          log_traceback]) ∧
  log_executed "get_current_weather"
    ∉ new_events (call_tool offline "get_current_weather" (VDict [])) with_broken_weather.
Proof.
  apply (call_tool_reports_what_it_logs offline "get_current_weather" (VDict [])
           with_broken_weather "No coordinates found").
  vm_compute. do 2 right. left.
Defined.

(** ** What [list_tools] returns and raises *)

Lemma collect_Returned {A B} (f : A → Outcome B) (xs : list A) (ys : list B) :
  collect (map f xs) = Returned ys ↔ Forall2 (fun x y => f x = Returned y) xs ys.
Proof.
  revert ys. induction xs as [|x xs IH]; intros ys; simpl.
  - split.
    + intros [= <-]. constructor.
    + intros H. by inversion H.
  - destruct (f x) as [b|e] eqn:Hfx.
    + destruct (collect (map f xs)) as [l|e] eqn:Hc.
      * split.
        -- intros [= <-]. constructor; [done|]. by apply IH.
        -- intros H. inversion H as [|? y ? ys' Hy Hrest]; subst.
           rewrite Hfx in Hy. injection Hy as <-.
           apply IH in Hrest. by injection Hrest as <-.
      * split; [discriminate|].
        intros H. inversion H as [|? y ? ys' Hy Hrest]; subst.
        apply IH in Hrest. discriminate.
    + split; [discriminate|].
      intros H. inversion H as [|? y ? ys' Hy Hrest]; subst. congruence.
Qed.

Lemma collect_first_failure {A B} (f : A → Outcome B) (before after : list A) x e :
  Forall (fun x' => ∃ y, f x' = Returned y) before →
  f x = Raised e →
  collect (map f (before ++ x :: after)) = Raised e.
Proof.
  intros Hbefore Hx. induction Hbefore as [|x' before [y Hy] _ IH]; simpl.
  - by rewrite Hx.
  - by rewrite Hy, IH.
Qed.

(** X4. [list_tools] does not swallow a failing description: when the
    handlers are described in the order of the registry and one of them
    raises, after handlers whose descriptions returned, [list_tools] raises
    that very exception, gives no partial list, logs the error when it is an
    [Exception], and leaves the registry as it was. *)
Theorem list_tools_raises_first_failure : ∀ s before h after e,
  PyDict.values (tool_handlers s) = before ++ h :: after →
  Forall (fun h' => ∃ t, get_tool_description h' = Returned t) before →
  get_tool_description h = Raised e →
  outcome_of list_tools s = Raised e ∧
  tool_handlers (state_after list_tools s) = tool_handlers s ∧
  new_events list_tools s
  = (if isinstance_Exception e then [log_list_error (exc_str e)] else []).
Proof.
  intros s before h after e Hvalues Hbefore Hh.
  pose proof (collect_first_failure get_tool_description before after h e Hbefore Hh)
    as Hcollect.
  rewrite <- Hvalues in Hcollect.
  split_and!.
  - unfold outcome_of. rewrite list_tools_run, Hcollect.
    by destruct (isinstance_Exception e).
  - apply list_tools_registry.
  - unfold new_events, state_after. rewrite list_tools_run, Hcollect.
    destruct (isinstance_Exception e); simpl.
    + by rewrite drop_app_length.
    + by rewrite drop_all.
Qed.

Lemma list_tools_raises_first_failure_witness :
  outcome_of list_tools with_undescribed = Raised (mkExc TypeError "no schema") ∧
  tool_handlers (state_after list_tools with_undescribed) = tool_handlers with_undescribed ∧
  new_events list_tools with_undescribed
  = (if isinstance_Exception (mkExc TypeError "no schema")
     then [log_list_error (exc_str (mkExc TypeError "no schema"))] else []).
Proof.
  apply (list_tools_raises_first_failure with_undescribed [first_weather]
           (undescribed "get_timezone_info" (mkExc TypeError "no schema"))
           [clock_reader "get_current_datetime"]).
  - reflexivity.
  - repeat constructor. by eexists.
  - reflexivity.
Defined.

(** X5. In every state of the registry, [list_tools] returns exactly when
    every registered handler's description returns; it then gives one
    descriptor per entry of the registry, in the registry's order, and logs
    their number, which is the size of the registry. On the empty registry
    it returns the empty list. *)
Theorem list_tools_returns_when_all_described : ∀ s,
  ((∃ tools, outcome_of list_tools s = Returned tools) ↔
   Forall (fun h => ∃ t, get_tool_description h = Returned t)
     (PyDict.values (tool_handlers s))) ∧
  (∀ tools, outcome_of list_tools s = Returned tools →
     Forall2 (fun h t => get_tool_description h = Returned t)
       (PyDict.values (tool_handlers s)) tools ∧
     length tools = PyDict.len (tool_handlers s) ∧
     new_events list_tools s = [log_listed (PyDict.len (tool_handlers s))]) ∧
  (tool_handlers s = [] → outcome_of list_tools s = Returned []).
Proof.
  intros s.
  assert (∀ tools, outcome_of list_tools s = Returned tools ↔
            collect (map get_tool_description (PyDict.values (tool_handlers s)))
            = Returned tools) as Hout.
  { intros tools. unfold outcome_of. rewrite list_tools_run.
    destruct (collect _) as [l|e]; simpl; [done|].
    by destruct (isinstance_Exception e). }
  split_and!.
  - split.
    + intros [tools Htools]. apply Hout, collect_Returned in Htools.
      clear Hout. induction Htools; constructor; eauto.
    + intros Hall.
      destruct (collect (map get_tool_description (PyDict.values (tool_handlers s))))
        as [tools|e] eqn:Hc.
      * exists tools. by apply Hout.
      * exfalso. clear Hout. revert e Hc.
        induction Hall as [|h hs [t Ht] _ IH]; intros e; simpl; [discriminate|].
        rewrite Ht. destruct (collect (map get_tool_description hs)) as [l|e'];
          [discriminate|]. intros [= <-]. by eapply IH.
  - intros tools Htools. pose proof Htools as Hc. apply Hout in Hc.
    pose proof Hc as Hf2. apply collect_Returned in Hf2.
    assert (length tools = PyDict.len (tool_handlers s)) as Hlen.
    { apply Forall2_length in Hf2. unfold PyDict.values, PyDict.len in *.
      by rewrite length_map in Hf2. }
    split_and!; [done | done |].
    unfold new_events, state_after. rewrite list_tools_run, Hc. simpl.
    by rewrite drop_app_length, Hlen.
  - intros Hempty. apply Hout. by rewrite Hempty.
Qed.

(** ** Registration, once more *)

Lemma register_all_tools_run c s :
  register_all_tools c s =
  (Returned tt,
   {| tool_handlers := tool_handlers (state_after (register_each (handlers_of c)) s);
      events := events s ++ map (fun h => log_registered (name h)) (handlers_of c)
                  ++ [log_registered_count
                        (PyDict.len (tool_handlers
                                       (state_after (register_each (handlers_of c)) s)))] |}).
Proof.
  unfold register_all_tools, bind, add_tool_handler, write_registry, emit,
    read_registry, ret. simpl. by rewrite <- !app_assoc.
Qed.

(** X6. [register_all_tools] never raises. It logs one line per handler, in
    the order of the source, and then the number of handlers in the registry.
    From the empty registry this number is the number of different names
    among the six handlers: at least one, at most six, and six when the names
    are pairwise different. *)
Theorem register_all_tools_counts_names : ∀ c,
  outcome_of (register_all_tools c) initial = Returned tt ∧
  events (state_after (register_all_tools c) initial)
  = map (fun h => log_registered (name h)) (handlers_of c)
      ++ [log_registered_count
            (PyDict.len (tool_handlers (state_after (register_all_tools c) initial)))] ∧
  PyDict.len (tool_handlers (state_after (register_all_tools c) initial))
  = length (first_seen [] (map name (handlers_of c))) ∧
  (1 ≤ PyDict.len (tool_handlers (state_after (register_all_tools c) initial)) ≤ 6)%nat ∧
  (NoDup (map name (handlers_of c)) →
   PyDict.len (tool_handlers (state_after (register_all_tools c) initial)) = 6%nat).
Proof.
  intros c. unfold outcome_of, state_after. rewrite register_all_tools_run.
  cbn [fst snd tool_handlers events initial app].
  assert (PyDict.len (tool_handlers (state_after (register_each (handlers_of c)) initial))
          = length (first_seen [] (map name (handlers_of c)))) as Hlen.
  { unfold PyDict.len.
    rewrite <- (length_map fst). fold (PyDict.keys (tool_handlers
      (state_after (register_each (handlers_of c)) initial))).
    by rewrite register_each_keys. }
  split_and!; [done | done | done | | |].
  - rewrite Hlen. apply first_seen_grows.
  - rewrite Hlen.
    pose proof (first_seen_length (map name (handlers_of c)) []) as [_ H].
    simpl in H. exact H.
  - intros Hnd. rewrite Hlen, first_seen_distinct by done. reflexivity.
Qed.

(** X7. Registering is idempotent: in every state reached by registrations,
    running [register_all_tools] a second time with the same handlers leaves
    the registry as the first run left it. *)
Theorem register_all_tools_twice : ∀ hs c,
  tool_handlers
    (state_after (register_all_tools c)
       (state_after (register_all_tools c) (after_registering hs)))
  = tool_handlers (state_after (register_all_tools c) (after_registering hs)).
Proof.
  intros hs c. unfold state_after at 1 2 3. rewrite !register_all_tools_run.
  cbn [snd tool_handlers].
  set (s := after_registering hs).
  transitivity (tool_handlers
                  (state_after (register_each (handlers_of c))
                     (state_after (register_each (handlers_of c)) s))).
  - reflexivity.
  - apply register_each_again. unfold s, after_registering.
    rewrite register_each_keys. apply first_seen_NoDup, NoDup_nil_2.
Qed.

(** X8. What [get_tool_handler] finds under a name carries that name, and is
    one of the handlers that were registered: the registry never hands out a
    handler under another name than its own. *)
Theorem get_tool_handler_name_matches : ∀ hs n h,
  outcome_of (get_tool_handler n) (after_registering hs) = Returned (Some h) →
  name h = n ∧ h ∈ hs.
Proof.
  intros hs n h. unfold outcome_of, after_registering.
  rewrite get_tool_handler_run. simpl. rewrite register_each_get.
  destruct (most_recent n hs) as [h'|] eqn:Hrecent; [|discriminate].
  intros [= <-]. apply most_recent_elem in Hrecent as [Hin Hname]. done.
Qed.

Lemma get_tool_handler_name_matches_witness :
  name second_weather = "get_current_weather" ∧ second_weather ∈ three_registrations.
Proof.
  apply (get_tool_handler_name_matches three_registrations "get_current_weather"
           second_weather).
  reflexivity.
Defined.

(** ** Listing and dispatching together *)

Lemma list_tools_outcome_registry s1 s2 :
  tool_handlers s1 = tool_handlers s2 →
  outcome_of list_tools s1 = outcome_of list_tools s2.
Proof.
  intros Hreg. unfold outcome_of. rewrite !list_tools_run, Hreg.
  destruct (collect _) as [tools|e]; [done|].
  by destruct (isinstance_Exception e).
Qed.

(** X9. Serving requests does not change what is listed: after any sequence
    of [call_tool] and [list_tools] requests, [list_tools] gives what it gave
    before them. *)
Theorem list_tools_stable_under_requests : ∀ rs s,
  outcome_of list_tools (serve rs s) = outcome_of list_tools s.
Proof.
  intros rs s. apply list_tools_outcome_registry, serve_registry.
Qed.

(** X10. A registration takes effect at once and alone decides the next
    dispatch under its name: right after [add_tool_handler h], whatever was
    registered before, a call of [h]'s name with dictionary arguments runs [h]
    and returns [h]'s content, or the error text of [h]'s failure. *)
Theorem call_tool_after_add_tool_handler : ∀ w h arguments s,
  isinstance_dict arguments = true →
  outcome_of (call_tool w (name h) arguments) (state_after (add_tool_handler h) s)
  = match run_tool h w arguments with
    | Returned r => Returned r
    | Raised e =>
        if isinstance_Exception e
        then Returned [TextContent (error_text (name h) (exc_str e))]
        else Raised e
    end ∧
  runs (new_events (call_tool w (name h) arguments) (state_after (add_tool_handler h) s))
  = [await_run_tool (name h) arguments].
Proof.
  intros w h arguments s Hdict.
  assert (PyDict.get (name h) (tool_handlers (state_after (add_tool_handler h) s))
          = Some h) as Hget.
  { unfold state_after. rewrite add_tool_handler_run. simpl. apply get_set_eq. }
  split.
  - unfold outcome_of. rewrite call_tool_passes, call_tool_body_run, Hdict, Hget.
    simpl. destruct (run_tool h w arguments) as [r|e]; [done|].
    by destruct (isinstance_Exception e).
  - rewrite call_tool_new_events, Hdict, Hget.
    destruct (run_tool h w arguments) as [r|e]; [done|].
    by destruct (isinstance_Exception e).
Qed.

Lemma call_tool_after_add_tool_handler_witness :
  outcome_of (call_tool offline (name second_weather) (VDict []))
    (state_after (add_tool_handler second_weather) with_first_weather)
  = match run_tool second_weather offline (VDict []) with
    | Returned r => Returned r
    | Raised e =>
        if isinstance_Exception e
        then Returned [TextContent (error_text (name second_weather) (exc_str e))]
        else Raised e
    end ∧
  runs (new_events (call_tool offline (name second_weather) (VDict []))
          (state_after (add_tool_handler second_weather) with_first_weather))
  = [await_run_tool (name second_weather) (VDict [])].
Proof.
  apply (call_tool_after_add_tool_handler offline second_weather (VDict [])
           with_first_weather).
  reflexivity.
Defined.

(** X11. Listing and dispatching agree: after any registrations of handlers
    that describe themselves, a call under a name that [list_tools] lists is
    decided by a registered handler of that name (it returns that handler's
    content, or the error text of its failure, and logs one run of it), and a
    call under a name that it does not list is answered with the unknown-tool
    error, with no run logged. *)
Theorem listed_names_are_the_callable_names : ∀ hs w arguments tools,
  Forall describes_itself hs →
  isinstance_dict arguments = true →
  outcome_of list_tools (after_registering hs) = Returned tools →
  (∀ n, n ∈ map tool_name tools →
     ∃ h, h ∈ hs ∧ name h = n ∧
          PyDict.get n (tool_handlers (after_registering hs)) = Some h ∧
          outcome_of (call_tool w n arguments) (after_registering hs)
          = match run_tool h w arguments with
            | Returned r => Returned r
            | Raised e =>
                if isinstance_Exception e
                then Returned [TextContent (error_text n (exc_str e))]
                else Raised e
            end ∧
          runs (new_events (call_tool w n arguments) (after_registering hs))
          = [await_run_tool n arguments]) ∧
  (∀ n, n ∉ map tool_name tools →
     outcome_of (call_tool w n arguments) (after_registering hs)
     = Returned [TextContent (error_text n ("Unknown tool: " +:+ n))] ∧
     runs (new_events (call_tool w n arguments) (after_registering hs)) = []).
Proof.
  intros hs w arguments tools Hall Hdict Hlist.
  set (s := after_registering hs) in *.
  assert (map tool_name tools = PyDict.keys (tool_handlers s)) as Hnames.
  { unfold outcome_of in Hlist. rewrite list_tools_run in Hlist.
    destruct (collect _) as [l|e] eqn:Hc;
      [|by destruct (isinstance_Exception e)].
    simpl in Hlist. injection Hlist as ->. apply collect_Returned in Hc.
    rewrite <- keyed_names
      by (apply (register_each_keyed hs initial), Forall_nil_2).
    assert (Forall describes_itself (PyDict.values (tool_handlers s))) as Hdesc.
    { apply Forall_forall. intros h Hin. unfold PyDict.values in Hin.
      apply list_elem_of_fmap in Hin as ([k h'] & -> & Hin).
      apply registered_most_recent in Hin as [_ Hrecent].
      apply most_recent_elem in Hrecent as [Hhs _].
      rewrite Forall_forall in Hall. by apply Hall. }
    clear -Hc Hdesc. induction Hc as [|h t hs' tools' Ht _ IH]; simpl; [done|].
    inversion Hdesc as [|? ? (t' & Ht' & Hn) Hrest]; subst.
    rewrite Ht in Ht'. injection Ht' as <-. by rewrite Hn, IH. }
  rewrite Hnames. split.
  - intros n Hin. destruct (PyDict.get n (tool_handlers s)) as [h|] eqn:Hget.
    + assert (name h = n ∧ h ∈ hs) as [Hname Hhs].
      { unfold s, after_registering in Hget. rewrite register_each_get in Hget.
        destruct (most_recent n hs) as [h'|] eqn:Hrecent; [|discriminate].
        injection Hget as <-. by apply most_recent_elem in Hrecent as [? ?]. }
      exists h. split_and!; [done | done | done | |].
      * unfold outcome_of. rewrite call_tool_passes, call_tool_body_run, Hdict, Hget.
        simpl. destruct (run_tool h w arguments) as [r|e]; [done|].
        by destruct (isinstance_Exception e).
      * rewrite call_tool_new_events, Hdict, Hget, Hname.
        destruct (run_tool h w arguments) as [r|e]; [done|].
        by destruct (isinstance_Exception e).
    + by apply get_None_keys in Hget.
  - intros n Hnotin. apply get_None_keys in Hnotin. split.
    + unfold outcome_of. by rewrite call_tool_passes, call_tool_body_run, Hdict, Hnotin.
    + by rewrite call_tool_new_events, Hdict, Hnotin.
Qed.

Lemma listed_names_are_the_callable_names_witness :
  outcome_of (call_tool offline "get_current_weather" (VDict []))
    (after_registering three_registrations)
  = Returned [TextContent "second"] ∧
  runs (new_events (call_tool offline "get_current_weather" (VDict []))
          (after_registering three_registrations))
  = [await_run_tool "get_current_weather" (VDict [])] ∧
  outcome_of (call_tool offline "get_tides" (VDict [])) (after_registering three_registrations)
  = Returned [TextContent "Error executing tool 'get_tides': Unknown tool: get_tides"] ∧
  runs (new_events (call_tool offline "get_tides" (VDict []))
          (after_registering three_registrations)) = [].
Proof.
  assert (Forall describes_itself three_registrations) as Hall.
  { repeat constructor; eexists; (split; [reflexivity|]); reflexivity. }
  destruct (listed_names_are_the_callable_names three_registrations offline (VDict [])
              [plain_tool "get_current_weather"; plain_tool "get_current_datetime"]
              Hall eq_refl eq_refl) as [Hlisted Hunlisted].
  destruct (Hlisted "get_current_weather" ltac:(left))
    as (h & _ & _ & Hget & Hout & Hruns).
  injection Hget as <-.
  destruct (Hunlisted "get_tides") as [Hunknown Hnone].
  { intros Hin. repeat (apply elem_of_cons in Hin as [Hin|Hin]; [discriminate|]).
    by apply elem_of_nil in Hin. }
  split_and!.
  - exact Hout.
  - exact Hruns.
  - exact Hunknown.
  - exact Hnone.
Defined.

(** * Properties of the test harness ([tests/conftest.py]) *)

(** ** [MCPServerProcess] *)

Section ServerProcessFacts.
Import MCPServerProcess.

Lemma poll_found health : ∀ retries m i,
  (i < retries)%nat →
  healthy (health (health_requests m + i)%nat) = true →
  (∀ j, (j < i)%nat → healthy (health (health_requests m + j)%nat) = false) →
  poll health retries m
  = (true, {| running := running m; spawned := spawned m;
              health_requests := (health_requests m + S i)%nat;
              sleeps := (sleeps m + i)%nat |}).
Proof.
  induction retries as [|retries IH]; intros m i Hi Hok Hbefore; [lia|].
  destruct i as [|i].
  - rewrite Nat.add_0_r in Hok. simpl.
    destruct (health (health_requests m)) as [status_code body|msg]; [|discriminate].
    simpl in Hok. apply bool_decide_eq_true in Hok. rewrite decide_True by done.
    do 2 f_equal; lia.
  - pose proof (Hbefore 0%nat ltac:(lia)) as H0. rewrite Nat.add_0_r in H0.
    assert (poll health (S retries) m
            = poll health retries
                {| running := running m; spawned := spawned m;
                   health_requests := S (health_requests m);
                   sleeps := S (sleeps m) |}) as ->.
    { cbn [poll]. destruct (health (health_requests m)) as [status_code body|msg]; [|done].
      simpl in H0. apply bool_decide_eq_false in H0. by rewrite decide_False. }
    rewrite (IH _ i); cbn [health_requests sleeps running spawned].
    + do 2 f_equal; lia.
    + lia.
    + by replace (S (health_requests m) + i)%nat with (health_requests m + S i)%nat by lia.
    + intros j Hj.
      replace (S (health_requests m) + j)%nat with (health_requests m + S j)%nat by lia.
      apply Hbefore. lia.
Qed.

Lemma poll_exhausted health : ∀ retries m,
  (∀ j, (j < retries)%nat → healthy (health (health_requests m + j)%nat) = false) →
  poll health retries m
  = (false, {| running := running m; spawned := spawned m;
               health_requests := (health_requests m + retries)%nat;
               sleeps := (sleeps m + retries)%nat |}).
Proof.
  induction retries as [|retries IH]; intros m Hnone.
  - simpl. destruct m. simpl. do 2 f_equal; lia.
  - pose proof (Hnone 0%nat ltac:(lia)) as H0. rewrite Nat.add_0_r in H0.
    assert (poll health (S retries) m
            = poll health retries
                {| running := running m; spawned := spawned m;
                   health_requests := S (health_requests m);
                   sleeps := S (sleeps m) |}) as ->.
    { cbn [poll]. destruct (health (health_requests m)) as [status_code body|msg]; [|done].
      simpl in H0. apply bool_decide_eq_false in H0. by rewrite decide_False. }
    rewrite IH; cbn [health_requests sleeps running spawned].
    + do 2 f_equal; lia.
    + intros j Hj.
      replace (S (health_requests m) + j)%nat with (health_requests m + S j)%nat by lia.
      apply Hnone. lia.
Qed.

End ServerProcessFacts.

Lemma filter_other (child : nat) (l : list nat) :
  child ∉ l → filter (fun c => c ≠ child) l = l.
Proof.
  induction l as [|c l IH]; intros Hnotin; [done|].
  apply not_elem_of_cons in Hnotin as [Hne Hl].
  rewrite filter_cons_True by done. by rewrite IH.
Qed.

(** X12. [start] stops polling at the first health answer with status 200
    among its thirty tries: it returns after exactly that many requests,
    having slept once after each answer before it, with the child process it
    started recorded in [process]. *)
Theorem start_returns_at_first_healthy_answer : ∀ health self m i,
  (i < 30)%nat →
  MCPServerProcess.healthy (health (MCPServerProcess.health_requests m + i)%nat) = true →
  (∀ j, (j < i)%nat →
     MCPServerProcess.healthy (health (MCPServerProcess.health_requests m + j)%nat) = false) →
  MCPServerProcess.start health self m
  = (Returned tt,
     ({| MCPServerProcess.process := Some (MCPServerProcess.spawned m);
         MCPServerProcess.port := MCPServerProcess.port self;
         MCPServerProcess.base_url := MCPServerProcess.base_url self |},
      {| MCPServerProcess.running :=
           MCPServerProcess.spawned m :: MCPServerProcess.running m;
         MCPServerProcess.spawned := S (MCPServerProcess.spawned m);
         MCPServerProcess.health_requests :=
           (MCPServerProcess.health_requests m + S i)%nat;
         MCPServerProcess.sleeps := (MCPServerProcess.sleeps m + i)%nat |})).
Proof.
  intros health self m i Hi Hok Hbefore. unfold MCPServerProcess.start.
  by rewrite (poll_found health MCPServerProcess.max_retries _ i).
Qed.

Lemma start_returns_at_first_healthy_answer_witness :
  MCPServerProcess.start MCPServerProcess.slow_start MCPServerProcess.init
    MCPServerProcess.idle
  = (Returned tt,
     ({| MCPServerProcess.process := Some 0%nat;
         MCPServerProcess.port := 8000;
         MCPServerProcess.base_url := "http://localhost:8000" |},
      {| MCPServerProcess.running := [0%nat];
         MCPServerProcess.spawned := 1;
         MCPServerProcess.health_requests := 4;
         MCPServerProcess.sleeps := 3 |})).
Proof.
  apply (start_returns_at_first_healthy_answer MCPServerProcess.slow_start
           MCPServerProcess.init MCPServerProcess.idle 3).
  - lia.
  - reflexivity.
  - intros j Hj. destruct j as [|[|[|j]]]; [reflexivity | reflexivity | reflexivity | lia].
Defined.

(** X13. When none of thirty health answers has status 200 (refused
    connections included), [start] gives up: it raises
    [RuntimeError("MCP server failed to start")] after exactly thirty
    requests and thirty sleeps. It does not clean up: the child it started
    has not been terminated and is still recorded in [process], so a [stop]
    is still due. *)
Theorem start_gives_up_after_thirty_tries : ∀ health self m,
  (∀ j, (j < 30)%nat →
     MCPServerProcess.healthy (health (MCPServerProcess.health_requests m + j)%nat) = false) →
  MCPServerProcess.start health self m
  = (Raised (mkExc RuntimeError "MCP server failed to start"),
     ({| MCPServerProcess.process := Some (MCPServerProcess.spawned m);
         MCPServerProcess.port := MCPServerProcess.port self;
         MCPServerProcess.base_url := MCPServerProcess.base_url self |},
      {| MCPServerProcess.running :=
           MCPServerProcess.spawned m :: MCPServerProcess.running m;
         MCPServerProcess.spawned := S (MCPServerProcess.spawned m);
         MCPServerProcess.health_requests :=
           (MCPServerProcess.health_requests m + 30)%nat;
         MCPServerProcess.sleeps := (MCPServerProcess.sleeps m + 30)%nat |})).
Proof.
  intros health self m Hnone. unfold MCPServerProcess.start.
  by rewrite (poll_exhausted health MCPServerProcess.max_retries).
Qed.

Lemma start_gives_up_after_thirty_tries_witness :
  MCPServerProcess.start MCPServerProcess.never_up MCPServerProcess.init
    MCPServerProcess.idle
  = (Raised (mkExc RuntimeError "MCP server failed to start"),
     ({| MCPServerProcess.process := Some 0%nat;
         MCPServerProcess.port := 8000;
         MCPServerProcess.base_url := "http://localhost:8000" |},
      {| MCPServerProcess.running := [0%nat];
         MCPServerProcess.spawned := 1;
         MCPServerProcess.health_requests := 30;
         MCPServerProcess.sleeps := 30 |})).
Proof.
  apply (start_gives_up_after_thirty_tries MCPServerProcess.never_up
           MCPServerProcess.init MCPServerProcess.idle).
  intros j Hj. reflexivity.
Defined.

(** X14. [stop] undoes [start]: whether [start] returned or gave up, a
    [stop] after it terminates the child that [start] spawned and no other,
    and clears [process]; a second [stop] changes nothing, and so does a
    [stop] when no process was started. *)
Theorem stop_undoes_start : ∀ health self m,
  MCPServerProcess.spawned m ∉ MCPServerProcess.running m →
  MCPServerProcess.process
    (MCPServerProcess.stop (MCPServerProcess.start health self m).2.1
       (MCPServerProcess.start health self m).2.2).1 = None ∧
  MCPServerProcess.running
    (MCPServerProcess.stop (MCPServerProcess.start health self m).2.1
       (MCPServerProcess.start health self m).2.2).2
  = MCPServerProcess.running m ∧
  (∀ self' m',
     MCPServerProcess.stop (MCPServerProcess.stop self' m').1
       (MCPServerProcess.stop self' m').2
     = MCPServerProcess.stop self' m') ∧
  (∀ m', MCPServerProcess.stop MCPServerProcess.init m' = (MCPServerProcess.init, m')).
Proof.
  intros health self m Hfresh.
  assert (∃ o requests naps,
            MCPServerProcess.start health self m
            = (o, ({| MCPServerProcess.process := Some (MCPServerProcess.spawned m);
                      MCPServerProcess.port := MCPServerProcess.port self;
                      MCPServerProcess.base_url := MCPServerProcess.base_url self |},
                   {| MCPServerProcess.running :=
                        MCPServerProcess.spawned m :: MCPServerProcess.running m;
                      MCPServerProcess.spawned := S (MCPServerProcess.spawned m);
                      MCPServerProcess.health_requests := requests;
                      MCPServerProcess.sleeps := naps |})))
    as (o & requests & naps & Hstart).
  { unfold MCPServerProcess.start.
    assert (∀ retries m0, ∃ b requests naps,
              MCPServerProcess.poll health retries m0
              = (b, {| MCPServerProcess.running := MCPServerProcess.running m0;
                       MCPServerProcess.spawned := MCPServerProcess.spawned m0;
                       MCPServerProcess.health_requests := requests;
                       MCPServerProcess.sleeps := naps |})) as Hpoll.
    { induction retries as [|retries IH]; intros m0.
      - exists false, (MCPServerProcess.health_requests m0), (MCPServerProcess.sleeps m0).
        by destruct m0.
      - cbn [MCPServerProcess.poll].
        destruct (health (MCPServerProcess.health_requests m0)) as [status_code body|msg].
        + case_decide; [by eexists _, _, _|]. apply (IH (MCPServerProcess.mkMachine _ _ _ _)).
        + apply (IH (MCPServerProcess.mkMachine _ _ _ _)). }
    destruct (Hpoll MCPServerProcess.max_retries
                {| MCPServerProcess.running :=
                     MCPServerProcess.spawned m :: MCPServerProcess.running m;
                   MCPServerProcess.spawned := S (MCPServerProcess.spawned m);
                   MCPServerProcess.health_requests := MCPServerProcess.health_requests m;
                   MCPServerProcess.sleeps := MCPServerProcess.sleeps m |})
      as (b & requests & naps & ->).
    destruct b; by eexists _, _, _. }
  rewrite Hstart. unfold MCPServerProcess.stop.
  cbn [fst snd MCPServerProcess.process MCPServerProcess.running]. split_and!.
  - done.
  - rewrite filter_cons_False by (intros H; by apply H).
    by apply filter_other.
  - intros self' m'. unfold MCPServerProcess.stop.
    destruct (MCPServerProcess.process self') eqn:Hp; cbn [fst snd MCPServerProcess.process].
    + reflexivity.
    + by rewrite Hp.
  - reflexivity.
Qed.

Lemma stop_undoes_start_witness :
  MCPServerProcess.process
    (MCPServerProcess.stop
       (MCPServerProcess.start MCPServerProcess.never_up MCPServerProcess.init
          MCPServerProcess.idle).2.1
       (MCPServerProcess.start MCPServerProcess.never_up MCPServerProcess.init
          MCPServerProcess.idle).2.2).1 = None ∧
  MCPServerProcess.running
    (MCPServerProcess.stop
       (MCPServerProcess.start MCPServerProcess.never_up MCPServerProcess.init
          MCPServerProcess.idle).2.1
       (MCPServerProcess.start MCPServerProcess.never_up MCPServerProcess.init
          MCPServerProcess.idle).2.2).2
  = MCPServerProcess.running MCPServerProcess.idle ∧
  (∀ self' m',
     MCPServerProcess.stop (MCPServerProcess.stop self' m').1
       (MCPServerProcess.stop self' m').2
     = MCPServerProcess.stop self' m') ∧
  (∀ m', MCPServerProcess.stop MCPServerProcess.init m' = (MCPServerProcess.init, m')).
Proof.
  apply (stop_undoes_start MCPServerProcess.never_up MCPServerProcess.init
           MCPServerProcess.idle).
  apply not_elem_of_nil.
Defined.

(** ** The mocks of the clock and of the time zones *)

Section MockFacts.
Context {DateTime Tz : Type}.
Context (astimezone : DateTime → Tz → DateTime) (datetime_now : option Tz → DateTime).
Implicit Types (self : MockDateTime.t (DateTime := DateTime)) (target : Patch.Target).

Lemma stop_mocking_clears self target :
  MockDateTime.tidy (self, target) →
  MockDateTime.patches (MockDateTime.stop_mocking self target).1 = [] ∧
  Patch.installed (MockDateTime.stop_mocking self target).2 = [].
Proof.
  intros [Hinst Hlen]. simpl in *. split; [done|].
  unfold MockDateTime.stop_mocking. simpl.
  destruct (MockDateTime.patches self) as [|p [|q rest]]; simpl in *; [done | | lia].
  rewrite Hinst. by rewrite filter_cons_False by (intros H; by apply H).
Qed.

Lemma start_mocking_installs_one self target :
  MockDateTime.tidy (self, target) →
  ∃ p, MockDateTime.patches (MockDateTime.start_mocking self target).1 = [p] ∧
       Patch.installed (MockDateTime.start_mocking self target).2 = [p] ∧
       MockDateTime.fixed_time (MockDateTime.start_mocking self target).1
       = MockDateTime.fixed_time self.
Proof.
  intros Htidy. pose proof (stop_mocking_clears self target Htidy) as [_ Hi].
  destruct Htidy as [Hinst Hlen].
  unfold MockDateTime.start_mocking, MockDateTime.stop_mocking in *.
  cbn [fst snd MockDateTime.patches MockDateTime.fixed_time] in *.
  destruct (MockDateTime.patches self) as [|p0 rest] eqn:Hpatches.
  - exists (Patch.created target). cbn. by rewrite Hinst, Hpatches.
  - exists (Patch.created (fold_left Patch.stop (p0 :: rest) target)).
    cbn [Patch.start fst snd MockDateTime.patches MockDateTime.fixed_time
         Patch.installed app].
    by rewrite Hi.
Qed.

Lemma call_tidy (st : MockDateTime.t (DateTime := DateTime) * Patch.Target) c :
  MockDateTime.tidy st → MockDateTime.tidy (MockDateTime.call st c).
Proof.
  intros Htidy. destruct st as [self target]. destruct c as [dt| |]; simpl.
  - exact Htidy.
  - destruct (start_mocking_installs_one self target Htidy) as (p & Hp & Hi & _).
    split; [by rewrite Hp, Hi | rewrite Hp; simpl; lia].
  - destruct (stop_mocking_clears self target Htidy) as [Hp Hi].
    split; [by rewrite Hp, Hi | rewrite Hp; simpl; lia].
Qed.

Lemma calls_tidy (cs : list (MockDateTime.Call (DateTime := DateTime))) :
  MockDateTime.tidy (MockDateTime.calls cs).
Proof.
  unfold MockDateTime.calls.
  assert (∀ st, MockDateTime.tidy st → MockDateTime.tidy (fold_left MockDateTime.call cs st)) as H.
  { induction cs as [|c cs IH]; intros st Hst; [done|]. simpl. by apply IH, call_tidy. }
  apply H. split; simpl; [done | lia].
Qed.

Lemma calls_snoc (cs : list (MockDateTime.Call (DateTime := DateTime))) c :
  MockDateTime.calls (cs ++ [c]) = MockDateTime.call (MockDateTime.calls cs) c.
Proof. unfold MockDateTime.calls. by rewrite fold_left_app. Qed.

(** X15. The mocked clock is never patched twice over and never left
    patched: whatever the test called before, after [start_mocking] exactly
    one patcher is installed, after [stop_mocking] (the fixture's teardown)
    none is, and at every moment the installed patchers are the ones the
    fixture keeps in [patches]. *)
Theorem mocking_never_stacks : ∀ cs : list (MockDateTime.Call (DateTime := DateTime)),
  Patch.installed (MockDateTime.calls cs).2 = MockDateTime.patches (MockDateTime.calls cs).1 ∧
  (length (Patch.installed (MockDateTime.calls cs).2) ≤ 1)%nat ∧
  length (Patch.installed (MockDateTime.calls (cs ++ [MockDateTime.StartMocking])).2) = 1%nat ∧
  Patch.installed (MockDateTime.calls (cs ++ [MockDateTime.StopMocking])).2 = [].
Proof.
  intros cs. pose proof (calls_tidy cs) as Htidy.
  destruct (MockDateTime.calls cs) as [self target] eqn:Hcs.
  split_and!.
  - apply Htidy.
  - destruct Htidy as [-> Hlen]. exact Hlen.
  - rewrite calls_snoc, Hcs. cbn [MockDateTime.call fst snd].
    destruct (start_mocking_installs_one self target Htidy) as (p & _ & -> & _). done.
  - rewrite calls_snoc, Hcs. cbn [MockDateTime.call fst snd].
    by destruct (stop_mocking_clears self target Htidy) as [_ ->].
Qed.

(** X16. What the patched module reads as the current time. Once mocking is
    started and a time is fixed, in either order and whatever was called
    before, [now()] is the fixed time as it is and [now(tz)] is the fixed time
    converted to [tz]; with mocking started and no time fixed, and after
    [stop_mocking], it is the real clock. *)
Theorem mocked_clock_reads_fixed_time :
  ∀ (cs : list (MockDateTime.Call (DateTime := DateTime))) (dt : DateTime) (tz : Tz),
    let started_then_fixed :=
      MockDateTime.calls (cs ++ [MockDateTime.StartMocking; MockDateTime.SetFixedTime dt]) in
    let fixed_then_started :=
      MockDateTime.calls (cs ++ [MockDateTime.SetFixedTime dt; MockDateTime.StartMocking]) in
    let stopped := MockDateTime.calls (cs ++ [MockDateTime.StopMocking]) in
    MockDateTime.observed_now astimezone datetime_now
      started_then_fixed.1 started_then_fixed.2 None = dt ∧
    MockDateTime.observed_now astimezone datetime_now
      started_then_fixed.1 started_then_fixed.2 (Some tz) = astimezone dt tz ∧
    MockDateTime.observed_now astimezone datetime_now
      fixed_then_started.1 fixed_then_started.2 None = dt ∧
    MockDateTime.observed_now astimezone datetime_now
      fixed_then_started.1 fixed_then_started.2 (Some tz) = astimezone dt tz ∧
    (∀ tz', MockDateTime.observed_now astimezone datetime_now stopped.1 stopped.2 tz'
            = datetime_now tz') ∧
    (∀ tz', MockDateTime.observed_now astimezone datetime_now
              (MockDateTime.calls (DateTime := DateTime) [MockDateTime.StartMocking]).1
              (MockDateTime.calls (DateTime := DateTime) [MockDateTime.StartMocking]).2 tz'
            = datetime_now tz').
Proof.
  intros cs dt tz. cbv zeta.
  pose proof (calls_tidy cs) as Htidy.
  replace (cs ++ [MockDateTime.StartMocking; MockDateTime.SetFixedTime dt])
    with ((cs ++ [MockDateTime.StartMocking]) ++ [MockDateTime.SetFixedTime dt])
    by by rewrite <- app_assoc.
  replace (cs ++ [MockDateTime.SetFixedTime dt; MockDateTime.StartMocking])
    with ((cs ++ [MockDateTime.SetFixedTime dt]) ++ [MockDateTime.StartMocking])
    by by rewrite <- app_assoc.
  rewrite !calls_snoc.
  destruct (MockDateTime.calls cs) as [self target].
  assert (MockDateTime.tidy (MockDateTime.set_fixed_time dt self, target)) as Htidy' by exact Htidy.
  destruct (start_mocking_installs_one self target Htidy) as (p & _ & Hi & _).
  destruct (start_mocking_installs_one _ target Htidy') as (p' & _ & Hi' & Hf').
  destruct (stop_mocking_clears self target Htidy) as [_ Hs].
  unfold MockDateTime.observed_now, MockDateTime.mock_now, Patch.replaced.
  cbn [MockDateTime.call fst snd MockDateTime.set_fixed_time MockDateTime.fixed_time].
  rewrite Hi, Hi', Hf', Hs. done.
Qed.

End MockFacts.

Section ZoneFacts.
Context {ZoneInfo : Type} (zoneinfo : string → Outcome ZoneInfo).

Lemma add_zones_lookup (zs : list (string * ZoneInfo)) : ∀ self n,
  MockTimezone.zone_mapping (MockTimezone.add_zones zs self) !! n
  = match MockTimezone.last_added n zs with
    | Some zone => Some zone
    | None => MockTimezone.zone_mapping self !! n
    end.
Proof.
  unfold MockTimezone.add_zones, MockTimezone.last_added.
  induction zs as [|[k zone] zs IH]; intros self n; [done|].
  cbn [fold_left]. rewrite IH. simpl rev. rewrite find_snoc.
  destruct (find _ (rev zs)) as [[k' zone']|]; [done|].
  cbn [fst snd MockTimezone.add_zone MockTimezone.zone_mapping].
  case_bool_decide as Hk; simpl.
  - subst. by rewrite lookup_insert_eq.
  - by rewrite lookup_insert_ne.
Qed.

(** X17. The mocked time zone lookup answers with the zone last added under
    the name, if one was added, without asking the real database (so also for
    names the real database does not know); for every other name it gives
    what the real [ZoneInfo] gives, its failure included. *)
Theorem mock_get_zoneinfo_last_added : ∀ (zs : list (string * ZoneInfo)) (n : string),
  MockTimezone.mock_get_zoneinfo zoneinfo (MockTimezone.add_zones zs MockTimezone.init) n
  = match MockTimezone.last_added n zs with
    | Some zone => Returned zone
    | None => zoneinfo n
    end.
Proof.
  intros zs n. unfold MockTimezone.mock_get_zoneinfo. rewrite add_zones_lookup.
  destruct (MockTimezone.last_added n zs); [done|].
  unfold MockTimezone.init. cbn [MockTimezone.zone_mapping]. by rewrite lookup_empty.
Qed.

End ZoneFacts.

Example mock_get_zoneinfo_shadows_and_falls_through :
  MockTimezone.mock_get_zoneinfo two_zones
    (MockTimezone.add_zones [("Mars/Olympus", "UTC+00:37"); ("UTC", "fake")]
       MockTimezone.init) "Mars/Olympus" = Returned "UTC+00:37" ∧
  MockTimezone.mock_get_zoneinfo two_zones
    (MockTimezone.add_zones [("Mars/Olympus", "UTC+00:37"); ("UTC", "fake")]
       MockTimezone.init) "UTC" = Returned "fake" ∧
  MockTimezone.mock_get_zoneinfo two_zones
    (MockTimezone.add_zones [("Mars/Olympus", "UTC+00:37"); ("UTC", "fake")]
       MockTimezone.init) "America/New_York" = Returned "UTC-05:00" ∧
  MockTimezone.mock_get_zoneinfo two_zones
    (MockTimezone.add_zones [("Mars/Olympus", "UTC+00:37"); ("UTC", "fake")]
       MockTimezone.init) "Europe/Atlantis"
  = Raised (mkExc (OtherException "ZoneInfoNotFoundError") "Europe/Atlantis").
Proof. split_and!; reflexivity. Qed.

(** * The dispatcher with handlers that act on the world *)

Section LiveFacts.
Context {Env : Type}.
Implicit Types (s : Live.State (Env := Env)) (h : Live.Handler (Env := Env)).

Lemma live_add_tool_handler_run h s :
  Live.add_tool_handler h s =
  (Returned tt,
   {| Live.tool_handlers := PyDict.set (Live.name h) h (Live.tool_handlers s);
      Live.events := Live.events s ++ [log_registered (Live.name h)];
      Live.env := Live.env s |}).
Proof. reflexivity. Qed.

Lemma live_register_each_env (hs : list (Live.Handler (Env := Env))) : ∀ s,
  Live.env (Live.state_after (Live.register_each hs) s) = Live.env s.
Proof.
  induction hs as [|h hs IH]; intros s; [done|].
  unfold Live.state_after in *. simpl. unfold Live.bind.
  rewrite live_add_tool_handler_run. by rewrite IH.
Qed.

Lemma live_register_each_handlers (hs : list (Live.Handler (Env := Env))) : ∀ s1 s2,
  Live.tool_handlers s1 = Live.tool_handlers s2 →
  Live.tool_handlers (Live.state_after (Live.register_each hs) s1)
  = Live.tool_handlers (Live.state_after (Live.register_each hs) s2).
Proof.
  induction hs as [|h hs IH]; intros s1 s2 Heq; [done|].
  unfold Live.state_after in *. simpl. unfold Live.bind.
  rewrite !live_add_tool_handler_run. apply IH. simpl. by rewrite Heq.
Qed.

Lemma live_register_each_runs (hs : list (Live.Handler (Env := Env))) : ∀ s,
  runs (Live.events (Live.state_after (Live.register_each hs) s)) = runs (Live.events s).
Proof.
  induction hs as [|h hs IH]; intros s; [done|].
  unfold Live.state_after in *. simpl. unfold Live.bind.
  rewrite live_add_tool_handler_run, IH. simpl.
  unfold runs. by rewrite filter_app, app_nil_r.
Qed.

Ltac live_unfold :=
  unfold Live.outcome_of, Live.state_after, Live.new_events, Live.call_tool,
    Live.try_except, Live.call_tool_body, Live.call_tool_except, Live.get_tool_handler,
    Live.read_registry, Live.await, Live.bind, Live.emit, Live.ret, Live.raise;
  cbn [fst snd Live.tool_handlers Live.events Live.env].

Lemma live_call_tool_outcome n arguments s :
  Live.outcome_of (Live.call_tool n arguments) s =
  if isinstance_dict arguments then
    match PyDict.get n (Live.tool_handlers s) with
    | None => Returned [TextContent (error_text n ("Unknown tool: " +:+ n))]
    | Some h => Live.reported n (Live.result_of (Live.run_tool h arguments (Live.env s)))
    end
  else Returned [TextContent (error_text n "Arguments must be a dictionary")].
Proof.
  live_unfold. destruct (isinstance_dict arguments); [|done].
  cbn [fst snd Live.tool_handlers Live.events Live.env].
  destruct (PyDict.get n (Live.tool_handlers s)) as [h|]; [|done].
  cbn [fst snd Live.tool_handlers Live.events Live.env].
  unfold Live.reported.
  destruct (Live.result_of (Live.run_tool h arguments (Live.env s))) as [c|e]; [done|].
  by destruct (isinstance_Exception e).
Qed.

Lemma live_call_tool_state n arguments s :
  let s' := Live.state_after (Live.call_tool n arguments) s in
  if isinstance_dict arguments then
    match PyDict.get n (Live.tool_handlers s) with
    | None => Live.env s' = Live.env s ∧ Live.tool_handlers s' = Live.tool_handlers s ∧
              runs (Live.events s') = runs (Live.events s)
    | Some h =>
        Live.env s' = Live.world_of (Live.run_tool h arguments (Live.env s)) ∧
        Live.tool_handlers s'
        = Live.tool_handlers
            (Live.state_after
               (Live.register_each
                  (Live.registered_by (Live.run_tool h arguments (Live.env s)))) s) ∧
        runs (Live.events s') = runs (Live.events s) ++ [await_run_tool (Live.name h) arguments]
    end
  else Live.env s' = Live.env s ∧ Live.tool_handlers s' = Live.tool_handlers s ∧
       runs (Live.events s') = runs (Live.events s).
Proof.
  cbv zeta.
  assert (∀ evs ev, is_run ev = false → runs (evs ++ [ev]) = runs evs) as Hskip.
  { intros evs ev Hev. unfold runs. rewrite filter_app.
    rewrite filter_cons_False by by rewrite Hev. by rewrite filter_nil, app_nil_r. }
  live_unfold. destruct (isinstance_dict arguments);
    cbn [fst snd Live.tool_handlers Live.events Live.env].
  - destruct (PyDict.get n (Live.tool_handlers s)) as [h|];
      cbn [fst snd Live.tool_handlers Live.events Live.env].
    + set (r := Live.run_tool h arguments (Live.env s)).
      set (s1 := {| Live.tool_handlers := Live.tool_handlers s;
                    Live.events := (Live.events s ++ [log_executing n (keys_of arguments)])
                                     ++ [await_run_tool (Live.name h) arguments];
                    Live.env := Live.world_of r |}).
      pose proof (live_register_each_env (Live.registered_by r) s1) as Henv.
      pose proof (live_register_each_handlers (Live.registered_by r) s1 s eq_refl) as Hreg.
      pose proof (live_register_each_runs (Live.registered_by r) s1) as Hruns.
      unfold Live.state_after in *.
      assert (runs (Live.events s1)
              = runs (Live.events s) ++ [await_run_tool (Live.name h) arguments]) as Hs1.
      { unfold s1. cbn [Live.events]. unfold runs. rewrite !filter_app.
        rewrite (filter_cons_False _ (log_executing _ _)) by done.
        rewrite filter_cons_True by done. by rewrite !filter_nil, app_nil_r. }
      destruct (Live.result_of r) as [c|e];
        cbn [fst snd Live.tool_handlers Live.events Live.env].
      * rewrite Hskip by done. by rewrite Henv, Hreg, Hruns, Hs1.
      * destruct (isinstance_Exception e);
          cbn [fst snd Live.tool_handlers Live.events Live.env].
        -- rewrite !Hskip by done. by rewrite Henv, Hreg, Hruns, Hs1.
        -- by rewrite Henv, Hreg, Hruns, Hs1.
    + simpl. by rewrite !Hskip.
  - simpl. by rewrite !Hskip.
Qed.

Lemma live_for_each_lift {A B} (f : A → Outcome B) (xs : list A) s :
  Live.for_each (fun x => Live.lift (f x)) xs s = (collect (map f xs), s).
Proof.
  induction xs as [|x xs IH]; [reflexivity|].
  simpl. unfold Live.bind, Live.lift at 1. destruct (f x) as [b|e]; [|reflexivity].
  rewrite IH. by destruct (collect (map f xs)).
Qed.

Lemma live_list_tools_run s :
  Live.list_tools s =
  match collect (map Live.get_tool_description (PyDict.values (Live.tool_handlers s))) with
  | Returned tools =>
      (Returned tools,
       {| Live.tool_handlers := Live.tool_handlers s;
          Live.events := Live.events s ++ [log_listed (length tools)];
          Live.env := Live.env s |})
  | Raised e =>
      if isinstance_Exception e then
        (Raised e,
         {| Live.tool_handlers := Live.tool_handlers s;
            Live.events := Live.events s ++ [log_list_error (exc_str e)];
            Live.env := Live.env s |})
      else (Raised e, s)
  end.
Proof.
  unfold Live.list_tools, Live.try_except, Live.bind at 1, Live.read_registry.
  unfold Live.bind at 1. rewrite live_for_each_lift.
  destruct (collect _) as [tools|e]; [reflexivity|].
  by destruct (isinstance_Exception e).
Qed.

Lemma live_list_tools_state s :
  Live.env (Live.state_after Live.list_tools s) = Live.env s ∧
  Live.tool_handlers (Live.state_after Live.list_tools s) = Live.tool_handlers s ∧
  runs (Live.events (Live.state_after Live.list_tools s)) = runs (Live.events s).
Proof.
  unfold Live.state_after. rewrite live_list_tools_run.
  destruct (collect _) as [tools|e]; simpl.
  - split_and!; [done | done |]. unfold runs. by rewrite filter_app, app_nil_r.
  - destruct (isinstance_Exception e); simpl; [|by split_and!].
    split_and!; [done | done |]. unfold runs. by rewrite filter_app, app_nil_r.
Qed.

(** C6. A call of [call_tool] runs at most one handler, as the world outside
    the server shows. When the arguments are not a dictionary or the name is
    not registered, the world is left as it was (no handler ran) and the
    registry too. Otherwise the world after the call is the world that one
    run of the handler registered under the name, on the arguments given,
    makes of the world before the call, and what the call returns is what
    that run returned (or the error text of its failure): that handler ran
    once and no other did. The dispatcher itself writes nothing into the
    registry: the registry after the call is the one before it plus what the
    handler's run registered, so with a handler that registers nothing (the
    handler invariant of the spec) the registry, and with it the set of
    registered names, is the same before and after. [list_tools] runs no
    handler and leaves the world and the registry as they were. *)
Theorem call_tool_runs_one_handler_once : ∀ (n : string) (arguments : PyValue) s,
  ((isinstance_dict arguments = false ∨ PyDict.get n (Live.tool_handlers s) = None) →
     Live.env (Live.state_after (Live.call_tool n arguments) s) = Live.env s ∧
     Live.tool_handlers (Live.state_after (Live.call_tool n arguments) s)
     = Live.tool_handlers s ∧
     runs (Live.events (Live.state_after (Live.call_tool n arguments) s))
     = runs (Live.events s)) ∧
  (∀ h, isinstance_dict arguments = true →
        PyDict.get n (Live.tool_handlers s) = Some h →
     Live.env (Live.state_after (Live.call_tool n arguments) s)
     = Live.world_of (Live.run_tool h arguments (Live.env s)) ∧
     Live.outcome_of (Live.call_tool n arguments) s
     = Live.reported n (Live.result_of (Live.run_tool h arguments (Live.env s))) ∧
     Live.tool_handlers (Live.state_after (Live.call_tool n arguments) s)
     = Live.tool_handlers
         (Live.state_after
            (Live.register_each
               (Live.registered_by (Live.run_tool h arguments (Live.env s)))) s) ∧
     (Live.registered_by (Live.run_tool h arguments (Live.env s)) = [] →
      Live.tool_handlers (Live.state_after (Live.call_tool n arguments) s)
      = Live.tool_handlers s ∧
      PyDict.keys (Live.tool_handlers (Live.state_after (Live.call_tool n arguments) s))
      = PyDict.keys (Live.tool_handlers s)) ∧
     runs (Live.events (Live.state_after (Live.call_tool n arguments) s))
     = runs (Live.events s) ++ [await_run_tool (Live.name h) arguments]) ∧
  Live.env (Live.state_after Live.list_tools s) = Live.env s ∧
  Live.tool_handlers (Live.state_after Live.list_tools s) = Live.tool_handlers s ∧
  runs (Live.events (Live.state_after Live.list_tools s)) = runs (Live.events s).
Proof.
  intros n arguments s.
  pose proof (live_call_tool_state n arguments s) as Hstate. cbv zeta in Hstate.
  pose proof (live_call_tool_outcome n arguments s) as Hout.
  split_and!.
  - intros [Hdict|Hnone].
    + by rewrite Hdict in Hstate.
    + destruct (isinstance_dict arguments); [|done]. by rewrite Hnone in Hstate.
  - intros h Hdict Hget. rewrite Hdict, Hget in Hstate, Hout.
    destruct Hstate as (Henv & Hreg & Hruns).
    split_and!; [done | done | done | | done].
    intros Hnothing. rewrite Hnothing in Hreg. by rewrite Hreg.
  - apply live_list_tools_state.
  - apply live_list_tools_state.
  - apply live_list_tools_state.
Qed.


End LiveFacts.

Lemma call_tool_runs_one_handler_once_witness :
  Live.env (Live.state_after (Live.call_tool "get_current_weather" (VDict [])) asking_server)
  = asked 1 "sunny" ∧
  Live.outcome_of (Live.call_tool "get_current_weather" (VDict [])) asking_server
  = Returned [TextContent "sunny"] ∧
  Live.tool_handlers
    (Live.state_after (Live.call_tool "get_current_weather" (VDict [])) asking_server)
  = Live.tool_handlers asking_server ∧
  Live.env (Live.state_after (Live.call_tool "get_tides" (VDict [])) asking_server)
  = asked 0 "sunny" ∧
  Live.env (Live.state_after (Live.call_tool "get_current_weather" (VStr "Taipei"))
              asking_server)
  = asked 0 "sunny".
Proof.
  destruct (call_tool_runs_one_handler_once "get_current_weather" (VDict []) asking_server)
    as (_ & Hone & _).
  destruct (Hone (asking "get_current_weather") eq_refl eq_refl)
    as (Henv & Hout & _ & Hreg & _).
  destruct (call_tool_runs_one_handler_once "get_tides" (VDict []) asking_server)
    as (Hunknown & _).
  destruct (call_tool_runs_one_handler_once "get_current_weather" (VStr "Taipei")
              asking_server) as (Hbad & _).
  split_and!.
  - exact Henv.
  - exact Hout.
  - exact (proj1 (Hreg eq_refl)).
  - exact (proj1 (Hunknown (or_intror eq_refl))).
  - exact (proj1 (Hbad (or_introl eq_refl))).
Defined.

(** Two calls ask the provider twice; a failing run has asked all the same;
    a run that registers a handler changes the registry. *)
Example two_calls_ask_twice :
  Live.env
    (Live.state_after (Live.call_tool "get_current_weather" (VDict []))
       (Live.state_after (Live.call_tool "get_current_weather" (VDict [])) asking_server))
  = asked 2 "sunny".
Proof. reflexivity. Qed.

Example failing_run_has_asked :
  Live.call_tool "get_current_weather" (VDict [])
    {| Live.tool_handlers :=
         [("get_current_weather",
           asking_in_vain "get_current_weather" (mkExc ValueError "No coordinates found"))];
       Live.events := [];
       Live.env := asked 0 "sunny" |}
  = (Returned [TextContent "Error executing tool 'get_current_weather': No coordinates found"],
     {| Live.tool_handlers :=
          [("get_current_weather",
            asking_in_vain "get_current_weather" (mkExc ValueError "No coordinates found"))];
        Live.events :=
          [log_executing "get_current_weather" [];
           await_run_tool "get_current_weather" (VDict []);
           log_exception "get_current_weather" "No coordinates found";
           log_traceback];
        Live.env := asked 1 "sunny" |}).
Proof. reflexivity. Qed.

Example installing_run_changes_registry :
  PyDict.keys
    (Live.tool_handlers
       (Live.state_after (Live.call_tool "install" (VDict []))
          {| Live.tool_handlers := [("install", installing "install" (asking "get_tides"))];
             Live.events := [];
             Live.env := asked 0 "sunny" |}))
  = ["install"; "get_tides"].
Proof. reflexivity. Qed.


(** ** The two models agree *)

Lemma get_embed n (d : PyDict.t ToolHandler) :
  PyDict.get n (map (fun kh => (kh.1, embed kh.2)) d) = embed <$> PyDict.get n d.
Proof.
  induction d as [|[k h] d IH]; simpl; [done|].
  by destruct (decide (n = k)).
Qed.

(** On handlers that leave the world as it is and register nothing, the
    dispatcher of this model is the dispatcher of the first one. *)
Lemma call_tool_embed w n arguments s :
  Live.call_tool n arguments (embed_state w s)
  = (outcome_of (call_tool w n arguments) s,
     embed_state w (state_after (call_tool w n arguments) s)).
Proof.
  unfold outcome_of, state_after. rewrite call_tool_passes, call_tool_body_run.
  unfold Live.call_tool, Live.try_except, Live.call_tool_body, Live.call_tool_except,
    Live.get_tool_handler, Live.read_registry, Live.await, Live.bind, Live.emit,
    Live.ret, Live.raise, call_tool_except, bind, emit, ret.
  destruct (isinstance_dict arguments); [|reflexivity].
  cbn [fst snd Live.tool_handlers Live.events Live.env embed_state].
  rewrite get_embed.
  destruct (PyDict.get n (tool_handlers s)) as [h|]; [|reflexivity].
  cbn. unfold Live.result_of. cbn.
  destruct (run_tool h w arguments) as [r|e]; [reflexivity|].
  cbn. destruct (isinstance_Exception e); reflexivity.
Qed.
